(** * Air Quality index: the dashboard script AQI.py

    A shallow embedding of [AQI.py], a Streamlit script that loads an
    uploaded CSV file with pandas, checks its columns, filters it by
    country and city, shows four indicators and four charts and offers
    the filtered table for download.

    The script is thirty lines of calls into pandas, Streamlit and
    Plotly.  The embedding has three layers:

    - the Python values and the pandas operations the script calls
      (a table with named, typed columns; [df[name]], boolean masks,
      [astype(str)], [.str.strip()], [dropna], [unique], [mean], [max],
      [mode], [sort_values], [head], [to_csv], [read_csv]);
    - the Streamlit run: the widgets a run puts on the page, in order,
      and how the run ends (to the last line, by [st.stop()], or by an
      exception nobody catches);
    - the script itself, statement by statement, under its own names.

    Fragment of pandas covered.  A cell is missing ([NaN]), an integer
    or a text.  Columns are [int64] (integers), [float64] (integers and
    missing cells; pandas widens an integer column that has a missing
    cell to floating point) or [object] (texts and missing cells).
    A floating-point cell holds a whole number, held exactly and
    written with a point and a zero ([50.0]).  Fractional numbers,
    exponents, infinities, booleans, integers outside 64 bits and row
    labels are outside the fragment: read_csv takes a field of that kind
    for a number or a boolean, here it is a text.  Texts are byte
    strings (UTF-8), and [strip] removes the ASCII white space of
    Python's [str.strip]. *)

From Stdlib Require Import Ascii.
From stdpp Require Import base numbers strings pretty sorting list.

(** ** Python values and exceptions *)

Inductive cell :=
  | NaN
  | Int (z : Z)
  | Str (s : string).

Inductive dtype := int64 | float64 | object.

Inductive exn :=
  | KeyError (key : string)
  | ValueError (msg : string)
  | TypeError (msg : string)
  | AttributeError (msg : string)
  | ParserError (msg : string)
  | EmptyDataError
  | StopException.

#[global] Instance cell_eq_dec : EqDecision cell.
Proof. solve_decision. Defined.
#[global] Instance dtype_eq_dec : EqDecision dtype.
Proof. solve_decision. Defined.
#[global] Instance exn_eq_dec : EqDecision exn.
Proof. solve_decision. Defined.

(** A computation that returns or raises. *)
Definition result (A : Type) : Type := exn + A.

Definition Ok {A} (a : A) : result A := inr a.
Definition raise {A} (e : exn) : result A := inl e.

#[global] Instance result_ret : MRet result := λ A a, inr a.
#[global] Instance result_bind : MBind result := λ A B f m,
  match m with
  | inl e => inl e
  | inr a => f a
  end.

(** [a == b] on two Python scalars: a missing value equals nothing, not
    even itself; a number and a text are never equal. *)
Definition py_eq (a b : cell) : bool :=
  match a, b with
  | Int x, Int y => bool_decide (x = y)
  | Str s, Str t => bool_decide (s = t)
  | _, _ => false
  end.

(** [str.strip()]: the white space Python strips, among the ASCII bytes. *)
Definition is_space (a : ascii) : bool :=
  match a with
  | "009" | "010" | "011" | "012" | "013"
  | "028" | "029" | "030" | "031" | " " => true
  | _ => false
  end%char.

Fixpoint lstrip (s : string) : string :=
  match s with
  | String a s' => if is_space a then lstrip s' else s
  | EmptyString => EmptyString
  end.

Definition rstrip (s : string) : string := String.rev (lstrip (String.rev s)).

Definition strip (s : string) : string := rstrip (lstrip s).

(** ** The pandas table *)

Record Series := mkSeries {
  s_dtype : dtype;
  s_values : list cell
}.

(** [columns] are the labels, [dtypes] their types, [rows] the cells of
    each row in the order of [columns]; a row shorter than the header
    reads as missing in the cells it lacks. *)
Record DataFrame := mkDataFrame {
  columns : list string;
  dtypes : list dtype;
  rows : list (list cell)
}.

#[global] Instance Series_eq_dec : EqDecision Series.
Proof. solve_decision. Defined.
#[global] Instance DataFrame_eq_dec : EqDecision DataFrame.
Proof. solve_decision. Defined.

Definition position (name : string) (cols : list string) : option nat :=
  fst <$> list_find (λ c, c = name) cols.

Definition cell_at (i : nat) (r : list cell) : cell := default NaN (r !! i).

Definition column_at (i : nat) (df : DataFrame) : Series :=
  {| s_dtype := default object (dtypes df !! i);
     s_values := cell_at i <$> rows df |}.

(** [df[name]].  A label that is absent raises [KeyError]; a label that
    occurs once selects that column.  A label that occurs more than once
    selects a sub-table, on which the Series methods of the script
    ([.str], [int(...)], [[0]]) fail: this is folded into the selection. *)
Definition getitem (df : DataFrame) (name : string) : result Series :=
  match filter (λ c, c = name) (columns df), position name (columns df) with
  | [_], Some i => Ok (column_at i df)
  | [], _ | _, None => raise (KeyError name)
  | _, _ => raise (AttributeError "'DataFrame' object is not a Series")
  end.

Definition set_cell (i : nat) (c : cell) (r : list cell) : list cell :=
  <[i := c]> (r ++ replicate (S i - length r) NaN).

(** [df[name] = s] for a label that is present: the column keeps its
    place and takes the cells and the type of [s].  For a new label the
    column is added at the end. *)
Definition setitem (df : DataFrame) (name : string) (s : Series) : DataFrame :=
  let i := default (length (columns df)) (position name (columns df)) in
  {| columns := match position name (columns df) with
                | Some _ => columns df
                | None => columns df ++ [name]
                end;
     dtypes := <[i := s_dtype s]> (dtypes df ++ replicate (S i - length (dtypes df)) object);
     rows := zip_with (set_cell i) (s_values s) (rows df) |}.

(** [str(x)] of a cell of a column of type [t]. *)
Definition py_str (t : dtype) (c : cell) : string :=
  match c with
  | NaN => "nan"
  | Int z => match t with
             | float64 => pretty z +:+ ".0"
             | _ => pretty z
             end
  | Str s => s
  end.

(** [s.astype(str)] *)
Definition astype_str (s : Series) : Series :=
  {| s_dtype := object;
     s_values := (λ c, Str (py_str (s_dtype s) c)) <$> s_values s |}.

(** [s.str.strip()]: only for a column of objects; an object that is not
    a text becomes missing. *)
Definition str_strip (s : Series) : result Series :=
  match s_dtype s with
  | object =>
      Ok {| s_dtype := object;
            s_values := (λ c, match c with Str t => Str (strip t) | _ => NaN end)
                          <$> s_values s |}
  | _ => raise (AttributeError "Can only use .str accessor with string values")
  end.

(** [s.dropna()], [s.unique()], [s.tolist()] *)
Definition dropna (s : Series) : Series :=
  {| s_dtype := s_dtype s; s_values := filter (λ c, c ≠ NaN) (s_values s) |}.

Fixpoint unique_cells (seen : list cell) (l : list cell) : list cell :=
  match l with
  | [] => []
  | c :: l' =>
      if bool_decide (c ∈ seen) then unique_cells seen l'
      else c :: unique_cells (c :: seen) l'
  end.

Definition unique (s : Series) : list cell := unique_cells [] (s_values s).

(** [s == v]: the boolean mask. *)
Definition series_eq (s : Series) (v : cell) : list bool :=
  (λ c, py_eq c v) <$> s_values s.

(** [df[mask]]: the rows whose mask entry is true, in their order. *)
Fixpoint mask_select {A} (l : list A) (mask : list bool) : list A :=
  match l, mask with
  | x :: l', b :: mask' =>
      if b then x :: mask_select l' mask' else mask_select l' mask'
  | _, _ => []
  end.

Definition getitem_mask (df : DataFrame) (mask : list bool) : DataFrame :=
  {| columns := columns df; dtypes := dtypes df;
     rows := mask_select (rows df) mask |}.

(** [df.copy()] *)
Definition copy (df : DataFrame) : DataFrame :=
  {| columns := columns df; dtypes := dtypes df; rows := rows df |}.

(** [sorted(l)] on a list of Python scalars without missing values:
    texts by code point, integers by value; a text and an integer do not
    compare. *)
Definition as_str (c : cell) : option string :=
  match c with Str s => Some s | _ => None end.
Definition as_int (c : cell) : option Z :=
  match c with Int z => Some z | _ => None end.

Definition sorted (l : list cell) : result (list cell) :=
  match mapM as_str l, mapM as_int l with
  | Some ss, _ => Ok (Str <$> merge_sort String.le ss)
  | None, Some zs => Ok (Int <$> merge_sort Z.le zs)
  | None, None => raise (TypeError "'<' not supported between instances of 'str' and 'int'")
  end.

(** ** Reductions of a column *)

(** A Python float: not-a-number, or the real number [num/den].  The
    arithmetic on them is exact here. *)
Inductive pyfloat :=
  | nan
  | ratio (num : Z) (den : positive).

#[global] Instance pyfloat_eq_dec : EqDecision pyfloat.
Proof. solve_decision. Defined.

Definition numbers (s : Series) : list Z := omap as_int (s_values s).

Definition all_missing (s : Series) : bool :=
  forallb (λ c, bool_decide (c = NaN)) (s_values s).

Definition sum_Z (l : list Z) : Z := foldr Z.add 0%Z l.

(** [s.mean()]: missing cells are skipped; no number left gives not-a-number.
    A column of objects that holds a text cannot be averaged. *)
Definition mean (s : Series) : result pyfloat :=
  match s_dtype s with
  | object =>
      if all_missing s then Ok nan
      else raise (TypeError "Could not convert string to numeric")
  | _ =>
      match numbers s with
      | [] => Ok nan
      | xs => Ok (ratio (sum_Z xs) (Pos.of_nat (length xs)))
      end
  end.

(** The integer nearest to [n/d], the even one of the two on a tie. *)
Definition half_even (n : Z) (d : positive) : Z :=
  let q := (n `div` Z.pos d)%Z in
  let r := (n `mod` Z.pos d)%Z in
  if (2 * r <? Z.pos d)%Z then q
  else if (Z.pos d <? 2 * r)%Z then (q + 1)%Z
  else if Z.even q then q else (q + 1)%Z.

(** [round(x, 1)]: the nearest tenth; not-a-number stays. *)
Definition round1 (x : pyfloat) : pyfloat :=
  match x with
  | nan => nan
  | ratio n d => ratio (half_even (10 * n) d) 10
  end.

(** [s.max()]: missing cells are skipped; no number left gives a missing
    value.  (For a column of objects that holds a text the script does
    not get here: [mean] on the line before has raised.) *)
Definition series_max (s : Series) : result cell :=
  match s_dtype s with
  | object =>
      if all_missing s then Ok NaN
      else raise (TypeError "'>=' not supported between instances of 'str' and 'float'")
  | _ =>
      match numbers s with
      | [] => Ok NaN
      | x :: xs => Ok (Int (foldr Z.max x xs))
      end
  end.

(** [int(x)] *)
Definition py_int (c : cell) : result Z :=
  match c with
  | Int z => Ok z
  | NaN => raise (ValueError "cannot convert float NaN to integer")
  | Str _ => raise (ValueError "invalid literal for int() with base 10")
  end.

Definition occurrences (c : cell) (l : list cell) : nat :=
  length (filter (λ x, x = c) l).

(** [s.mode()]: the values that occur most often among the cells that
    are not missing, sorted; left as found when they do not compare. *)
Definition mode (s : Series) : list cell :=
  let vals := filter (λ c, c ≠ NaN) (s_values s) in
  let uniq := unique_cells [] vals in
  let best := max_list ((λ u, occurrences u vals) <$> uniq) in
  let modes := filter (λ u, occurrences u vals = best) uniq in
  match sorted modes with
  | inr l => l
  | inl _ => modes
  end.

(** [s[0]] on the result of [mode()], whose labels are 0, 1, ... *)
Definition item0 (l : list cell) : result cell :=
  match l with
  | [] => raise (KeyError "0")
  | x :: _ => Ok x
  end.

(** ** Sorting and slicing rows *)

(** [a] may stand before [b] in descending order with the missing last. *)
Definition desc (a b : cell) : Prop :=
  match a, b with
  | _, NaN => True
  | NaN, _ => False
  | Int x, Int y => (y ≤ x)%Z
  | Str s, Str t => (t ≤ s)%string
  | Int _, Str _ => True
  | Str _, Int _ => False
  end.

#[global] Instance desc_dec : RelDecision desc.
Proof. intros [] []; simpl; apply _. Defined.

(** Rows compared by their cell in column [i]. *)
Definition desc_at (i : nat) (r1 r2 : list cell) : Prop :=
  desc (cell_at i r1) (cell_at i r2).

#[global] Instance desc_at_dec i : RelDecision (desc_at i).
Proof. intros r1 r2; unfold desc_at; apply _. Defined.

Definition mixed (s : Series) : bool :=
  existsb (λ c, bool_decide (is_Some (as_int c))) (s_values s)
  && existsb (λ c, bool_decide (is_Some (as_str c))) (s_values s).

(** [df.sort_values(by, ascending=False)]: rows by descending key, rows
    with a missing key last.  pandas leaves the order among equal keys
    to its sorting routine; here equal keys keep the order of a merge
    sort, and no statement below depends on it. *)
Definition sort_values_desc (df : DataFrame) (by_ : string) : result DataFrame :=
  s ← getitem df by_;
  if mixed s then raise (TypeError "'<' not supported between instances of 'str' and 'int'")
  else
    match position by_ (columns df) with
    | Some i =>
        Ok {| columns := columns df; dtypes := dtypes df;
              rows := merge_sort (desc_at i) (rows df) |}
    | None => raise (KeyError by_)
    end.

(** [df.head(n)] *)
Definition head (n : nat) (df : DataFrame) : DataFrame :=
  {| columns := columns df; dtypes := dtypes df; rows := take n (rows df) |}.

(** ** Writing CSV: [df.to_csv(index=False)] *)

Definition comma : ascii := "044"%char.
Definition dquote : ascii := "034"%char.
Definition newline : ascii := "010"%char.
Definition creturn : ascii := "013"%char.
Definition tab : ascii := "009"%char.
Definition space : ascii := "032"%char.

Fixpoint chars (s : string) : list ascii :=
  match s with
  | EmptyString => []
  | String a s' => a :: chars s'
  end.

Fixpoint text (l : list ascii) : string :=
  match l with
  | [] => EmptyString
  | a :: l' => String a (text l')
  end.

(** The writer quotes a field that holds the delimiter, the quote
    character or a character of the line terminator, and doubles the
    quote characters inside. *)
Definition special (a : ascii) : bool :=
  bool_decide (a = comma) || bool_decide (a = dquote) || bool_decide (a = newline).

Definition needs_quotes (field : list ascii) : bool := existsb special field.

Definition escape (field : list ascii) : list ascii :=
  field ≫= λ a, if bool_decide (a = dquote) then [dquote; dquote] else [a].

Definition write_field (field : string) : list ascii :=
  if needs_quotes (chars field) then dquote :: escape (chars field) ++ [dquote]
  else chars field.

Fixpoint join (l : list (list ascii)) : list ascii :=
  match l with
  | [] => []
  | [x] => x
  | x :: l' => x ++ comma :: join l'
  end.

(** One record; a record that is a single empty field is written quoted. *)
Definition write_row (fields : list string) : list ascii :=
  match fields with
  | [EmptyString] => [dquote; dquote; newline]
  | _ => join (write_field <$> fields) ++ [newline]
  end.

(** A missing cell is written empty, the others as [str] gives them. *)
Definition format_cell (t : dtype) (c : cell) : string :=
  match c with
  | NaN => EmptyString
  | _ => py_str t c
  end.

Definition format_row (ts : list dtype) (n : nat) (r : list cell) : list string :=
  (λ j, format_cell (default object (ts !! j)) (cell_at j r)) <$> seq 0 n.

Definition to_csv (df : DataFrame) : string :=
  text (write_row (columns df)
        ++ (rows df ≫= λ r, write_row (format_row (dtypes df) (length (columns df)) r))).

(** [.encode("utf-8")]: texts are UTF-8 bytes already. *)
Definition encode_utf8 (s : string) : string := s.

(** ** Reading CSV: [pd.read_csv(file)] *)

(** The states of the tokenizer that the default options reach. *)
Inductive tstate :=
  | START_RECORD
  | START_FIELD
  | IN_FIELD
  | IN_QUOTED_FIELD
  | QUOTE_IN_QUOTED_FIELD
  | EAT_CRNL
  | EAT_CRNL_NOP
  | WHITESPACE_LINE.

(** [word] is the field being read and [line] the fields of the record
    being read, both last first; [lines] the records read, last first. *)
Record tokenizer := mkTok {
  state : tstate;
  word : list ascii;
  line : list string;
  lines : list (list string)
}.

Definition PUSH_CHAR (c : ascii) (t : tokenizer) : tokenizer :=
  {| state := state t; word := c :: word t; line := line t; lines := lines t |}.

Definition END_FIELD (t : tokenizer) : tokenizer :=
  {| state := state t; word := [];
     line := text (reverse (word t)) :: line t; lines := lines t |}.

Definition END_LINE (t : tokenizer) : tokenizer :=
  {| state := START_RECORD; word := [];
     line := []; lines := reverse (line t) :: lines t |}.

Definition GOTO (s : tstate) (t : tokenizer) : tokenizer :=
  {| state := s; word := word t; line := line t; lines := lines t |}.

Definition start_field (c : ascii) (t : tokenizer) : tokenizer :=
  if bool_decide (c = newline) then END_LINE (END_FIELD t)
  else if bool_decide (c = creturn) then GOTO EAT_CRNL (END_FIELD t)
  else if bool_decide (c = dquote) then GOTO IN_QUOTED_FIELD t
  else if bool_decide (c = comma) then GOTO START_FIELD (END_FIELD t)
  else GOTO IN_FIELD (PUSH_CHAR c t).

Definition in_field (c : ascii) (t : tokenizer) : tokenizer :=
  if bool_decide (c = newline) then END_LINE (END_FIELD t)
  else if bool_decide (c = creturn) then GOTO EAT_CRNL (END_FIELD t)
  else if bool_decide (c = comma) then GOTO START_FIELD (END_FIELD t)
  else PUSH_CHAR c t.

(** Empty lines are skipped, and so are lines of blanks and tabs. *)
Definition start_record (c : ascii) (t : tokenizer) : tokenizer :=
  if bool_decide (c = newline) then t
  else if bool_decide (c = creturn) then GOTO EAT_CRNL_NOP t
  else if bool_decide (c = space) || bool_decide (c = tab)
  then GOTO WHITESPACE_LINE (PUSH_CHAR c t)
  else start_field c (GOTO START_FIELD t).

Definition tokenize_byte (t : tokenizer) (c : ascii) : tokenizer :=
  match state t with
  | START_RECORD => start_record c t
  | START_FIELD => start_field c t
  | IN_FIELD => in_field c t
  | IN_QUOTED_FIELD =>
      if bool_decide (c = dquote) then GOTO QUOTE_IN_QUOTED_FIELD t
      else PUSH_CHAR c t
  | QUOTE_IN_QUOTED_FIELD =>
      if bool_decide (c = dquote) then GOTO IN_QUOTED_FIELD (PUSH_CHAR c t)
      else if bool_decide (c = comma) then GOTO START_FIELD (END_FIELD t)
      else if bool_decide (c = newline) then END_LINE (END_FIELD t)
      else if bool_decide (c = creturn) then GOTO EAT_CRNL (END_FIELD t)
      else GOTO IN_FIELD (PUSH_CHAR c t)
  | EAT_CRNL =>
      if bool_decide (c = newline) then END_LINE t
      else if bool_decide (c = comma) then GOTO START_FIELD (END_FIELD (END_LINE t))
      else start_record c (END_LINE t)
  | EAT_CRNL_NOP =>
      if bool_decide (c = newline) || bool_decide (c = comma) then GOTO START_RECORD t
      else start_record c (GOTO START_RECORD t)
  | WHITESPACE_LINE =>
      if bool_decide (c = newline)
      then {| state := START_RECORD; word := []; line := line t; lines := lines t |}
      else if bool_decide (c = creturn)
      then {| state := EAT_CRNL_NOP; word := []; line := line t; lines := lines t |}
      else if bool_decide (c = space) || bool_decide (c = tab) then PUSH_CHAR c t
      else in_field c (GOTO IN_FIELD t)
  end.

(** The end of the input closes the record being read; inside a quoted
    field it is an error. *)
Definition handle_eof (t : tokenizer) : result (list (list string)) :=
  match state t with
  | START_RECORD | WHITESPACE_LINE | EAT_CRNL_NOP => Ok (reverse (lines t))
  | IN_QUOTED_FIELD => raise (ParserError "EOF inside string")
  | IN_FIELD | START_FIELD | QUOTE_IN_QUOTED_FIELD =>
      Ok (reverse (lines (END_LINE (END_FIELD t))))
  | EAT_CRNL => Ok (reverse (lines (END_LINE t)))
  end.

Definition tokenize (input : string) : result (list (list string)) :=
  handle_eof (foldl tokenize_byte (mkTok START_RECORD [] [] []) (chars input)).

(** The fields that read as a missing value. *)
Definition na_values : list string :=
  [""; "#N/A"; "#N/A N/A"; "#NA"; "-1.#IND"; "-1.#QNAN"; "-NaN"; "-nan";
   "1.#IND"; "1.#QNAN"; "<NA>"; "N/A"; "NA"; "NULL"; "NaN"; "None";
   "n/a"; "nan"; "null"].

Definition is_na (field : string) : bool := bool_decide (field ∈ na_values).

Definition isspace_ascii (a : ascii) : bool :=
  match a with
  | "009" | "010" | "011" | "012" | "013" | " " => true
  | _ => false
  end%char.

Definition digit (a : ascii) : option Z := Z.of_nat <$> Ascii.is_nat a.

Fixpoint skip_spaces (l : list ascii) : list ascii :=
  match l with
  | a :: l' => if isspace_ascii a then skip_spaces l' else l
  | [] => []
  end.

(** The digits at the head of [l] read onto [acc], and what follows them. *)
Fixpoint read_digits (acc : Z) (l : list ascii) : Z * list ascii :=
  match l with
  | a :: l' =>
      match digit a with
      | Some d => read_digits (10 * acc + d)%Z l'
      | None => (acc, l)
      end
  | [] => (acc, [])
  end.

Definition starts_with_digit (l : list ascii) : bool :=
  match l with
  | a :: _ => bool_decide (is_Some (digit a))
  | [] => false
  end.

Definition read_sign (l : list ascii) : Z * list ascii :=
  match l with
  | "-"%char :: l' => ((-1)%Z, l')
  | "+"%char :: l' => (1%Z, l')
  | _ => (1%Z, l)
  end.

(** An integer field: blanks, a sign, digits, blanks; within 64 bits. *)
Definition str_to_int64 (field : string) : option Z :=
  let l := skip_spaces (chars field) in
  let '(sign, l) := read_sign l in
  if starts_with_digit l then
    let '(n, rest) := read_digits 0 l in
    let z := (sign * n)%Z in
    match skip_spaces rest with
    | [] => if bool_decide (- 2 ^ 63 ≤ z < 2 ^ 63)%Z then Some z else None
    | _ => None
    end
  else None.

Fixpoint skip_zeros (l : list ascii) : list ascii :=
  match l with
  | "0"%char :: l' => skip_zeros l'
  | _ => l
  end.

(** A whole number written as a decimal: an integer field, or one with a
    point and zeros after the digits. *)
Definition str_to_whole (field : string) : option Z :=
  let l := skip_spaces (chars field) in
  let '(sign, l) := read_sign l in
  if starts_with_digit l then
    let '(n, rest) := read_digits 0 l in
    let rest := match rest with
                | "."%char :: rest' => skip_zeros rest'
                | _ => rest
                end in
    match skip_spaces rest with
    | [] => Some (sign * n)%Z
    | _ => None
    end
  else None.

Definition int_or_na (f : string) : bool :=
  is_na f || bool_decide (is_Some (str_to_int64 f)).

Definition whole_or_na (f : string) : bool :=
  is_na f || bool_decide (is_Some (str_to_whole f)).

(** The type read_csv gives a column from its fields: integers when every
    field is an integer; floating point when some are missing, or
    written as decimals, and the others integers; objects otherwise; a
    column without rows is of objects. *)
Definition infer_dtype (fields : list string) : dtype :=
  match fields with
  | [] => object
  | _ =>
      if forallb int_or_na fields
      then if existsb is_na fields then float64 else int64
      else if forallb whole_or_na fields then float64
      else object
  end.

Definition convert (t : dtype) (field : string) : cell :=
  if is_na field then NaN
  else match t with
       | object => Str field
       | int64 => from_option Int NaN (str_to_int64 field)
       | float64 => from_option Int NaN (str_to_whole field)
       end.

Definition field_at (j : nat) (r : list string) : string := default EmptyString (r !! j).

(** The first record is the header.  The records after it take the
    width of the wider of the header and the first of them; a later
    record that is wider is an error, a narrower one is filled with
    empty fields.  Columns that the header does not name, at the left,
    label the rows and are no columns of the table.  The header fields
    are the labels as they stand (pandas renames an empty one and
    numbers the repeats of one). *)
Definition read_csv (file : string) : result DataFrame :=
  records ← tokenize file;
  match records with
  | [] => raise EmptyDataError
  | header :: data =>
      let n := length header in
      let w := match data with
               | [] => n
               | r :: _ => n `max` length r
               end in
      if existsb (λ r, bool_decide (w < length r)) data
      then raise (ParserError "Error tokenizing data")
      else
        let lead := w - n in
        let ts := (λ j, infer_dtype (field_at (lead + j) <$> data)) <$> seq 0 n in
        Ok {| columns := header;
              dtypes := ts;
              rows := (λ r, (λ j, convert (default object (ts !! j)) (field_at (lead + j) r))
                              <$> seq 0 n) <$> data |}
  end.

(** [df.columns = df.columns.str.strip()] *)
Definition strip_columns (df : DataFrame) : DataFrame :=
  {| columns := strip <$> columns df; dtypes := dtypes df; rows := rows df |}.

(** ** Plotly Express figures *)

(** A figure is the call that made it: the table and the arguments the
    script passes.  [reversed] is [yaxis.autorange = "reversed"]. *)
Inductive figure :=
  | px_histogram (data : DataFrame) (x color : string) (nbins : nat)
  | px_violin (data : DataFrame) (x y color : string)
  | px_scatter_geo (data : DataFrame) (lat lon size color hover_name : string)
  | px_bar (data : DataFrame) (x y color : string) (reversed : bool).

Definition update_layout_yaxis_reversed (fig : figure) : figure :=
  match fig with
  | px_bar data x y color _ => px_bar data x y color true
  | _ => fig
  end.





(** ** The Streamlit run *)

Inductive value :=
  | v_int (z : Z)
  | v_float (x : pyfloat)
  | v_obj (c : cell).

Inductive element :=
  | st_set_page_config (page_title layout : string)
  | st_title (body : string)
  | st_sidebar_header (body : string)
  | st_sidebar_file_uploader (label : string)
  | st_info (body : string)
  | st_error (body : string)
  | st_write_list (l : list string)
  | st_write (body : string)
  | st_subheader (body : string)
  | st_dataframe (data : DataFrame)
  | st_sidebar_selectbox (label : string) (options : list cell)
  | st_selectbox (label : string) (options : list cell)
  | st_columns (n : nat)
  | st_metric (label : string) (v : value)
  | st_plotly_chart (fig : figure)
  | st_download_button (label : string) (data : string) (file_name : string)
  | st_markdown (body : string).

(** A run: what it has put on the page, and how it ended. *)
Definition run (A : Type) : Type := list element * result A.

#[global] Instance run_ret : MRet run := λ A a, ([], inr a).
#[global] Instance run_bind : MBind run := λ A B f m,
  match m with
  | (shown, inl e) => (shown, inl e)
  | (shown, inr a) => let '(more, r) := f a in (shown ++ more, r)
  end.

Definition show (e : element) : run unit := ([e], Ok ()).
Definition lift {A} (r : result A) : run A := ([], r).

(** [st.stop()] ends the run at once. *)
Definition st_stop : run unit := ([], raise StopException).

(** A select box shows its options and returns the user's choice; a
    choice that is not among the options falls back on the first. *)
Definition choose (options : list cell) (choice : cell) : cell :=
  if bool_decide (choice ∈ options) then choice else default NaN (options !! 0).

Definition sidebar_selectbox (label : string) (options : list cell) (choice : cell)
  : run cell :=
  ([st_sidebar_selectbox label options], Ok (choose options choice)).

Definition selectbox (label : string) (options : list cell) (choice : cell)
  : run cell :=
  ([st_selectbox label options], Ok (choose options choice)).

(** ** AQI.py *)

(** *** Load data (lines 32 to 37) *)

(** [df[name] = df[name].astype(str).str.strip()] *)
Definition clean (df : DataFrame) (name : string) : result DataFrame :=
  s ← getitem df name;
  s ← str_strip (astype_str s);
  Ok (setitem df name s).

Definition load (uploaded_file : string) : result DataFrame :=
  df ← read_csv uploaded_file;
  let df := strip_columns df in
  df ← clean df "Country";
  clean df "City".

(** *** Required columns check (lines 42 to 53) *)

Definition required_columns : list string :=
  ["Country"; "City"; "AQI Value"; "AQI Category";
   "CO AQI Value"; "Ozone AQI Value";
   "NO2 AQI Value"; "PM2.5 AQI Value";
   "lat"; "lng"].

Definition missing (df : DataFrame) : list string :=
  filter (λ col, col ∉ columns df) required_columns.

Definition check_columns (df : DataFrame) : run unit :=
  match missing df with
  | [] => mret ()
  | missing =>
      show (st_error "❌ Dataset is missing required columns:");;
      show (st_write_list missing);;
      st_stop
  end.

(** *** Sidebar filters (lines 66 to 80) *)

(** [["All"] + sorted(df[name].dropna().unique().tolist())] *)
Definition options (df : DataFrame) (name : string) : result (list cell) :=
  s ← getitem df name;
  l ← sorted (unique (dropna s));
  Ok (Str "All" :: l).

(** The tables are objects in a store; a variable holds the address of
    one.  [df.copy()] and [df[mask]] make a new object, an assignment to
    a variable makes it hold another address. *)
Abbreviation store := (list DataFrame).

Definition new (o : DataFrame) (h : store) : nat * store := (length h, h ++ [o]).

Definition deref (a : nat) (h : store) : result DataFrame :=
  match h !! a with
  | Some o => Ok o
  | None => raise (KeyError "no such object")
  end.

(** [v = v[v[name] == choice]] *)
Definition keep (name : string) (choice : cell) (v : nat) (h : store)
  : result (nat * store) :=
  o ← deref v h;
  s ← getitem o name;
  Ok (new (getitem_mask o (series_eq s choice)) h).

(** Lines 76 to 80, with [df] the address of the table: the address of
    [filtered_df] at the end, and the store. *)
Definition filter_block (country city : cell) (df : nat) (h : store)
  : result (nat * store) :=
  o ← deref df h;
  let '(filtered_df, h) := new (copy o) h in
  '(filtered_df, h) ←
    (if negb (py_eq country (Str "All")) then keep "Country" country filtered_df h
     else Ok (filtered_df, h));
  if negb (py_eq city (Str "All")) then keep "City" city filtered_df h
  else Ok (filtered_df, h).

(** [filtered_df], for a table [df] alone in the store. *)
Definition filtered_df (df : DataFrame) (country city : cell) : result DataFrame :=
  '(a, h) ← filter_block country city 0 [df];
  deref a h.

(** *** Key indicators (lines 87 to 91) *)

Definition metrics (filtered_df : DataFrame) : run unit :=
  show (st_columns 4);;
  show (st_metric "Locations" (v_int (Z.of_nat (length (rows filtered_df)))));;
  avg ← lift (s ← getitem filtered_df "AQI Value"; mean s);
  show (st_metric "Average AQI" (v_float (round1 avg)));;
  top ← lift (s ← getitem filtered_df "AQI Value"; m ← series_max s; py_int m);
  show (st_metric "Max AQI" (v_int top));;
  dominant ← lift (s ← getitem filtered_df "AQI Category"; item0 (mode s));
  show (st_metric "Dominant Category" (v_obj dominant)).

(** *** Charts (lines 96 to 182) *)

Definition aqi_colors : list (string * string) :=
  [("Good", "#00FF6A");
   ("Moderate", "#FFE600");
   ("Unhealthy for Sensitive Groups", "#FF9F1C");
   ("Unhealthy", "#FF3B3B");
   ("Very Unhealthy", "#B5179E");
   ("Hazardous", "#7A0000")].

Definition pollutants : list cell :=
  [Str "CO AQI Value"; Str "Ozone AQI Value"; Str "NO2 AQI Value"; Str "PM2.5 AQI Value"].

(** [top10 = filtered_df.sort_values("AQI Value", ascending=False).head(10)] *)
Definition top10 (filtered_df : DataFrame) : result DataFrame :=
  sorted_df ← sort_values_desc filtered_df "AQI Value";
  Ok (head 10 sorted_df).

Definition fig5 (top10 : DataFrame) : figure :=
  update_layout_yaxis_reversed (px_bar top10 "AQI Value" "City" "AQI Category" false).

Definition charts (filtered_df : DataFrame) (pollutant_choice : cell) : run unit :=
  show (st_subheader "📈 AQI Distribution by Category");;
  show (st_plotly_chart (px_histogram filtered_df "AQI Value" "AQI Category" 40));;
  show (st_subheader "🧪 Pollutant-wise Distribution");;
  pollutant ← selectbox "Select Pollutant" pollutants pollutant_choice;
  show (st_plotly_chart
          (px_violin filtered_df "AQI Category" (default "" (as_str pollutant)) "AQI Category"));;
  show (st_subheader "🗺️ Global AQI Map");;
  show (st_plotly_chart
          (px_scatter_geo filtered_df "lat" "lng" "AQI Value" "AQI Category" "City"));;
  show (st_subheader "🚨 Top 10 Most Polluted Cities");;
  top10 ← lift (top10 filtered_df);
  show (st_plotly_chart (fig5 top10)).

(** *** Download (lines 189 and 190) *)

Definition csv (filtered_df : DataFrame) : string :=
  encode_utf8 (to_csv filtered_df).

(** *** The script, top to bottom *)

(** Lines 49 to 196, with the table loaded. *)
Definition dashboard (df : DataFrame)
    (country_choice city_choice pollutant_choice : cell) : run unit :=
  check_columns df;;
  show (st_subheader "📄 Dataset Preview");;
  show (st_dataframe (head 5 df));;
  show (st_sidebar_header "🔍 Filters");;
  country_options ← lift (options df "Country");
  country ← sidebar_selectbox "Select Country" country_options country_choice;
  city_options ← lift (options df "City");
  city ← sidebar_selectbox "Select City" city_options city_choice;
  filtered_df ← lift (filtered_df df country city);
  show (st_subheader "📊 Key AQI Indicators");;
  metrics filtered_df;;
  charts filtered_df pollutant_choice;;
  show (st_subheader "⬇ Download Filtered Data");;
  show (st_download_button "Download CSV" (csv filtered_df) "filtered_air_quality_data.csv");;
  show (st_markdown "---");;
  show (st_write "✅ Advanced Air Quality EDA using **Streamlit + Plotly**").

(** The run for an upload (or none) and the user's three choices. *)
Definition script (uploaded_file : option string)
    (country_choice city_choice pollutant_choice : cell) : run unit :=
  show (st_set_page_config "Air Quality EDA Dashboard" "wide");;
  show (st_title "🌍 Air Quality Index (AQI) – Advanced Interactive EDA Dashboard");;
  show (st_sidebar_header "📂 Upload AQI Dataset");;
  show (st_sidebar_file_uploader "Upload AQI CSV file");;
  uploaded_file ←
    match uploaded_file with
    | None =>
        show (st_info "👆 Please upload the AQI dataset to begin analysis.");;
        st_stop;;
        mret EmptyString
    | Some file => mret file
    end;
  df ← lift (load uploaded_file);
  dashboard df country_choice city_choice pollutant_choice.

(** ** The data model of the dashboard *)

(** The cell of row [r] under the label [name]. *)
Definition field (df : DataFrame) (name : string) (r : list cell) : cell :=
  match position name (columns df) with
  | Some i => cell_at i r
  | None => NaN
  end.

Definition dtype_of (df : DataFrame) (name : string) : dtype :=
  match position name (columns df) with
  | Some i => default object (dtypes df !! i)
  | None => object
  end.

(** A table that passes the check of the required columns, its labels
    distinct. *)
Definition validated (df : DataFrame) : Prop :=
  NoDup (columns df) ∧ missing df = [].


Definition categorical (df : DataFrame) (name : string) : Prop :=
  Forall (λ r, is_Some (as_str (field df name r))) (rows df).


(** The rows that a pair of choices selects. *)
Definition selected (df : DataFrame) (country city : string) (r : list cell) : Prop :=
  (country = "All" ∨ field df "Country" r = Str country)
  ∧ (city = "All" ∨ field df "City" r = Str city).

#[global] Instance selected_dec df country city r : Decision (selected df country city r).
Proof. unfold selected. apply _. Defined.






(** The Working Subset in the words of the specification: the rows of
    the Dataset that the pair of choices selects, in the order of the
    Dataset, under the Dataset's labels and types. *)
Definition working_subset (df : DataFrame) (country city : string) : DataFrame :=
  {| columns := columns df; dtypes := dtypes df;
     rows := filter (selected df country city) (rows df) |}.

(** The Dataset of the specification's example: three records, two of
    country X. *)
Definition example : DataFrame :=
  {| columns := required_columns;
     dtypes := [object; object; int64; object; int64; int64; int64; int64; int64; int64];
     rows := [[Str "X"; Str "A"; Int 50; Str "Good"; Int 1; Int 2; Int 3; Int 4; Int 10; Int 20];
              [Str "X"; Str "B"; Int 80; Str "Moderate"; Int 1; Int 2; Int 3; Int 4; Int 11; Int 21];
              [Str "Y"; Str "C"; Int 30; Str "Good"; Int 1; Int 2; Int 3; Int 4; Int 12; Int 22]] |}.

(** The upload that loads to [example]. *)
Definition example_upload : string :=
  "Country,City,AQI Value,AQI Category,CO AQI Value,Ozone AQI Value,NO2 AQI Value,PM2.5 AQI Value,lat,lng
X,A,50,Good,1,2,3,4,10,20
X,B,80,Moderate,1,2,3,4,11,21
Y,C,30,Good,1,2,3,4,12,22
".


(** A Dataset without records: an upload that is a header line only. *)
Definition header_only : DataFrame :=
  {| columns := required_columns;
     dtypes := replicate 10 object;
     rows := [] |}.

Definition header_line : string :=
  "Country,City,AQI Value,AQI Category,CO AQI Value,Ozone AQI Value,NO2 AQI Value,PM2.5 AQI Value,lat,lng".

(** Three uploads of one record each: without the column lat, without
    the column Country, without the column City. *)
Definition upload_without_lat : string :=
  "Country,City,AQI Value,AQI Category,CO AQI Value,Ozone AQI Value,NO2 AQI Value,PM2.5 AQI Value,lng
X,A,50,Good,1,2,3,4,20
".

Definition upload_without_Country : string :=
  "City,AQI Value,AQI Category,CO AQI Value,Ozone AQI Value,NO2 AQI Value,PM2.5 AQI Value,lat,lng
A,50,Good,1,2,3,4,10,20
".

Definition upload_without_City : string :=
  "Country,AQI Value,AQI Category,CO AQI Value,Ozone AQI Value,NO2 AQI Value,PM2.5 AQI Value,lat,lng
X,50,Good,1,2,3,4,10,20
".


(** The indicators among what a run has shown. *)
Definition indicators (shown : list element) : list (string * value) :=
  omap (λ e, match e with st_metric label v => Some (label, v) | _ => None end) shown.

(** The charts among what a run has shown. *)
Definition shown_charts (shown : list element) : list figure :=
  omap (λ e, match e with st_plotly_chart fig => Some fig | _ => None end) shown.

(** What every run shows before it reads the upload (lines 8 to 23). *)
Definition page_top : list element :=
  [st_set_page_config "Air Quality EDA Dashboard" "wide";
   st_title "🌍 Air Quality Index (AQI) – Advanced Interactive EDA Dashboard";
   st_sidebar_header "📂 Upload AQI Dataset";
   st_sidebar_file_uploader "Upload AQI CSV file"].

(** ** Tables that survive export and ingestion *)














(** A character that the reader takes as part of a field wherever it
    stands: none of the delimiter, the quote, the end of line and the
    carriage return. *)
Definition ordinary (a : ascii) : Prop :=
  a ≠ comma ∧ a ≠ dquote ∧ a ≠ newline ∧ a ≠ creturn.

(** The states in which a field has been read and waits for the
    delimiter or for the end of the line. *)
Definition field_read (st : tstate) : Prop :=
  st = START_FIELD ∨ st = IN_FIELD ∨ st = QUOTE_IN_QUOTED_FIELD.

Definition no_creturn (field : string) : Prop :=
  Forall (λ a, a ≠ creturn) (chars field).

Definition point_zero : list ascii := ["."%char; "0"%char].


(** ** Notions for the properties of the load, the run and the ranking *)

(** A text that white space neither begins nor ends. *)
Definition trimmed (s : string) : Prop :=
  (∀ a, chars s !! 0 = Some a → is_space a = false)
  ∧ (∀ a, last (chars s) = Some a → is_space a = false).

(** A cell that a column of type [t] holds. *)
Definition cell_typed (t : dtype) (c : cell) : Prop :=
  match t, c with
  | int64, Int _ | float64, Int _ | float64, NaN | object, Str _ | object, NaN => True
  | _, _ => False
  end.

(** One type for each label and, in every row, one cell for each label,
    of the type of its column. *)
Definition well_typed (df : DataFrame) : Prop :=
  length (dtypes df) = length (columns df)
  ∧ Forall (λ r, Forall2 cell_typed (dtypes df) r) (rows df).

(** A blank, a tab or a character of an end of line. *)
Definition blank (a : ascii) : Prop :=
  a = space ∨ a = tab ∨ a = newline ∨ a = creturn.

(** The tokenizer between two records, none read yet. *)
Definition between_records (t : tokenizer) : Prop :=
  (state t = START_RECORD ∨ state t = WHITESPACE_LINE ∨ state t = EAT_CRNL_NOP)
  ∧ line t = [] ∧ lines t = [].

(** What a run shows between the check and the indicators (lines 58 to
    85): the preview of the first five rows of the table, the two select
    boxes with their options, the heading of the indicators. *)
Definition page_filters (df : DataFrame) (country_options city_options : list cell)
  : list element :=
  [st_subheader "📄 Dataset Preview";
   st_dataframe (head 5 df);
   st_sidebar_header "🔍 Filters";
   st_sidebar_selectbox "Select Country" country_options;
   st_sidebar_selectbox "Select City" city_options;
   st_subheader "📊 Key AQI Indicators"].

(** [r1] may stand before [r2] in the ranking: the higher AQI value
    first, a missing one last. *)
Definition ranks_before (df : DataFrame) (r1 r2 : list cell) : Prop :=
  desc (field df "AQI Value" r1) (field df "AQI Value" r2).

(** The example with the AQI value of its second record missing. *)
Definition example_gap : DataFrame :=
  {| columns := required_columns;
     dtypes := [object; object; float64; object; int64; int64; int64; int64; int64; int64];
     rows := [[Str "X"; Str "A"; Int 50; Str "Good"; Int 1; Int 2; Int 3; Int 4; Int 10; Int 20];
              [Str "X"; Str "B"; NaN; Str "Moderate"; Int 1; Int 2; Int 3; Int 4; Int 11; Int 21];
              [Str "Y"; Str "C"; Int 80; Str "Good"; Int 1; Int 2; Int 3; Int 4; Int 12; Int 22]] |}.

(** A table as read_csv gives it, before lines 36 and 37: a Country
    with blanks around it and one missing, the cities numbers. *)
Definition example_raw : DataFrame :=
  {| columns := ["Country"; "City"; "AQI Value"];
     dtypes := [object; float64; int64];
     rows := [[Str " X "; Int 7; Int 50]; [NaN; NaN; Int 80]] |}.


(** An upload whose third record has a field too many. *)
Definition upload_wide : string :=
  "Country,City
X,A
Y,C,30
".

(** * Properties *)

#[global] Arguments load : simpl never.
#[global] Arguments missing : simpl never.
#[global] Arguments options : simpl never.
#[global] Arguments filtered_df : simpl never.
#[global] Arguments metrics : simpl never.
#[global] Arguments charts : simpl never.
#[global] Arguments dashboard : simpl never.
#[global] Arguments top10 : simpl never.
#[global] Arguments csv : simpl never.
#[global] Arguments join : simpl never.
#[global] Arguments write_field : simpl never.


(** ** Selecting a column *)

Lemma filter_eq_absent (x : string) (l : list string) :
  x ∉ l → filter (λ c, c = x) l = [].
Proof.
  induction l as [|y l IH]; intros Hx; [done|].
  rewrite filter_cons. apply not_elem_of_cons in Hx as [Hne Hx].
  rewrite decide_False by done. by apply IH.
Qed.

Lemma filter_eq_NoDup (x : string) (l : list string) :
  NoDup l → x ∈ l → filter (λ c, c = x) l = [x].
Proof.
  induction 1 as [|y l Hy Hl IH]; intros Hin.
  - by apply elem_of_nil in Hin.
  - rewrite filter_cons. destruct (decide (y = x)) as [->|Hne].
    + f_equal. by apply filter_eq_absent.
    + apply IH. apply elem_of_cons in Hin as [->|Hin]; done.
Qed.

Lemma position_Some (x : string) (l : list string) :
  x ∈ l → ∃ i, position x l = Some i ∧ l !! i = Some x.
Proof.
  intros Hin. unfold position.
  destruct (list_find_elem_of (λ c, c = x) l x Hin eq_refl) as [[i y] Hf].
  rewrite Hf. exists i. split; [done|].
  apply list_find_Some in Hf as (Hi & -> & _). done.
Qed.

Lemma position_None (x : string) (l : list string) :
  x ∉ l → position x l = None.
Proof.
  intros Hx. unfold position.
  destruct (list_find _ l) as [[i y]|] eqn:Hf; [|done].
  apply list_find_Some in Hf as (Hi & -> & _).
  destruct Hx. by eapply list_elem_of_lookup_2.
Qed.

Lemma getitem_present (df : DataFrame) (name : string) :
  NoDup (columns df) → name ∈ columns df →
  ∃ i, position name (columns df) = Some i ∧ getitem df name = Ok (column_at i df).
Proof.
  intros Hnd Hin. destruct (position_Some _ _ Hin) as (i & Hi & _).
  exists i. split; [done|]. unfold getitem.
  by rewrite filter_eq_NoDup, Hi.
Qed.


Lemma missing_nil_required (df : DataFrame) (name : string) :
  missing df = [] → name ∈ required_columns → name ∈ columns df.
Proof.
  unfold missing. intros Hm Hin.
  destruct (decide (name ∈ columns df)) as [|Hn]; [done|].
  by destruct (filter_nil_not_elem_of _ _ name Hm Hn).
Qed.

Lemma validated_getitem (df : DataFrame) (name : string) :
  validated df → name ∈ required_columns →
  ∃ i, position name (columns df) = Some i ∧ getitem df name = Ok (column_at i df).
Proof.
  intros [Hnd Hm] Hin. apply getitem_present; [done|].
  by apply missing_nil_required.
Qed.

(** ** Boolean masks *)

Lemma mask_select_fmap {A} (g : A → bool) (l : list A) :
  mask_select l (g <$> l) = filter (λ x, g x = true) l.
Proof.
  induction l as [|x l IH]; [done|].
  rewrite fmap_cons, filter_cons. simpl. rewrite IH.
  destruct (g x); [by rewrite decide_True|by rewrite decide_False].
Qed.

Lemma py_eq_Str (c : cell) (s : string) : py_eq c (Str s) = true ↔ c = Str s.
Proof.
  destruct c as [|z|t]; simpl; [done..|].
  rewrite bool_decide_eq_true. naive_solver.
Qed.

Lemma py_eq_All (s : string) : negb (py_eq (Str s) (Str "All")) = false ↔ s = "All".
Proof. simpl. rewrite negb_false_iff, bool_decide_eq_true. done. Qed.

Lemma copy_id (df : DataFrame) : copy df = df.
Proof. by destruct df. Qed.

Lemma filter_ext_iff {A} (P Q : A → Prop) `{!∀ x, Decision (P x), !∀ x, Decision (Q x)}
    (l : list A) :
  (∀ x, x ∈ l → P x ↔ Q x) → filter P l = filter Q l.
Proof.
  induction l as [|x l IH]; intros HPQ; [done|].
  rewrite !filter_cons.
  rewrite IH by (intros y Hy; apply HPQ; by right).
  destruct (decide (P x)) as [HP|HP], (decide (Q x)) as [HQ|HQ]; try done.
  - destruct HQ. apply HPQ; [by left|done].
  - destruct HP. apply HPQ; [by left|done].
Qed.

Lemma filter_all {A} (P : A → Prop) `{!∀ x, Decision (P x)} (l : list A) :
  Forall P l → filter P l = l.
Proof.
  induction 1 as [|x l HP _ IH]; [done|].
  by rewrite filter_cons, decide_True, IH.
Qed.

(** [v = v[v[name] == choice]] makes one new object: the rows of [v]
    whose cell under [name] is the choice. *)
Lemma keep_spec (name choice : string) (v : nat) (h : store) (o : DataFrame) :
  NoDup (columns o) → name ∈ columns o → h !! v = Some o →
  keep name (Str choice) v h =
    Ok (length h,
        h ++ [{| columns := columns o; dtypes := dtypes o;
                 rows := filter (λ r, field o name r = Str choice) (rows o) |}]).
Proof.
  intros Hnd Hin Hv. unfold keep, deref. rewrite Hv. simpl.
  destruct (getitem_present o name Hnd Hin) as (i & Hi & ->). simpl.
  unfold new, getitem_mask, series_eq. simpl.
  rewrite <-list_fmap_compose, mask_select_fmap. do 5 f_equal.
  apply filter_ext_iff. intros r _. unfold field. rewrite Hi. simpl.
  apply py_eq_Str.
Qed.

(** ** The filter block *)

Ltac elem_of_list := repeat first [by apply list_elem_of_here | apply list_elem_of_further].

Lemma validated_Country (df : DataFrame) : validated df → "Country" ∈ columns df.
Proof.
  intros [_ Hm]. apply missing_nil_required; [done|].
  unfold required_columns. elem_of_list.
Qed.

Lemma validated_City (df : DataFrame) : validated df → "City" ∈ columns df.
Proof.
  intros [_ Hm]. apply missing_nil_required; [done|].
  unfold required_columns. elem_of_list.
Qed.

(** Lines 76 to 80 leave the objects of the store as they are, add new
    ones, and end with [filtered_df] at a new object: the working subset. *)
Lemma filter_block_spec (country city : string) (a : nat) (h : store) (df : DataFrame) :
  validated df → h !! a = Some df →
  ∃ a' objs,
    filter_block (Str country) (Str city) a h = Ok (a', h ++ objs)
    ∧ (h ++ objs) !! a' = Some (working_subset df country city)
    ∧ length h ≤ a'.
Proof.
  intros Hv Ha. pose proof (validated_Country df Hv) as HC.
  pose proof (validated_City df Hv) as HY. destruct Hv as [Hnd _].
  unfold filter_block, deref. rewrite Ha. simpl. rewrite copy_id.
  assert (Hlast : ∀ (l : store) o, (l ++ [o]) !! length l = Some o).
  { intros l o. by rewrite lookup_app_r, Nat.sub_diag by lia. }
  assert (Hlast2 : ∀ (l l' : store) o, (l ++ l' ++ [o]) !! length (l ++ l') = Some o).
  { intros l l' o. rewrite (assoc_L (++)). apply Hlast. }
  destruct (decide (country = "All")) as [Hc|Hc];
    destruct (decide (city = "All")) as [Hy|Hy];
    rewrite ?(bool_decide_eq_true_2 _ Hc), ?(bool_decide_eq_false_2 _ Hc),
      ?(bool_decide_eq_true_2 _ Hy), ?(bool_decide_eq_false_2 _ Hy); simpl.
  - (* both choices are "All" *)
    exists (length h), [df]. split_and!; [done| |done].
    rewrite Hlast. f_equal. unfold working_subset. destruct df as [cs ts rs]. simpl.
    f_equal. symmetry. apply filter_all, Forall_forall. intros r _. split; by left.
  - (* a city is chosen *)
    rewrite (keep_spec "City" city _ _ df Hnd HY (Hlast h df)). simpl.
    eexists _, [df; _]. split_and!.
    + rewrite <-(assoc_L (++)). reflexivity.
    + etrans; [apply (Hlast2 h [df])|]. f_equal.
      unfold working_subset. f_equal. apply filter_ext_iff. intros r _.
      unfold selected. tauto.
    + rewrite length_app. simpl. lia.
  - (* a country is chosen *)
    rewrite (keep_spec "Country" country _ _ df Hnd HC (Hlast h df)). simpl.
    eexists _, [df; _]. split_and!.
    + rewrite <-(assoc_L (++)). reflexivity.
    + etrans; [apply (Hlast2 h [df])|]. f_equal.
      unfold working_subset. f_equal. apply filter_ext_iff. intros r _.
      unfold selected. tauto.
    + rewrite length_app. simpl. lia.
  - (* both are chosen *)
    rewrite (keep_spec "Country" country _ _ df Hnd HC (Hlast h df)). simpl.
    set (o := {| columns := columns df; dtypes := dtypes df;
                 rows := filter (λ r, field df "Country" r = Str country) (rows df) |}).
    rewrite (keep_spec "City" city _ _ o Hnd HY (Hlast _ o)). simpl.
    eexists _, [df; o; _]. split_and!.
    + rewrite <-!(assoc_L (++)). reflexivity.
    + etrans; [apply (Hlast2 h [df; o])|]. f_equal.
      unfold working_subset. f_equal. rewrite list_filter_filter.
      apply filter_ext_iff. intros r _. unfold selected, field. simpl. tauto.
    + rewrite !length_app. simpl. lia.
Qed.

Lemma filtered_df_spec (df : DataFrame) (country city : string) :
  validated df →
  filtered_df df (Str country) (Str city) = Ok (working_subset df country city).
Proof.
  intros Hv. unfold filtered_df.
  destruct (filter_block_spec country city 0 [df] df Hv eq_refl)
    as (a' & objs & -> & Ha' & _).
  simpl. unfold deref. change (df :: objs) with ([df] ++ objs). by rewrite Ha'.
Qed.

Lemma validated_working_subset (df : DataFrame) (country city : string) :
  validated df → validated (working_subset df country city).
Proof. intros [Hnd Hm]. split; done. Qed.

Lemma validated_example : validated example.
Proof.
  split; [|done]. apply (bool_decide_unpack _). by vm_compute.
Qed.

(** C3. For every Dataset and every pair of choices the filter gives
    exactly the rows of the Dataset for which (the country choice is
    "All" or the row's Country is the choice) and (the city choice is
    "All" or the row's City is the choice), under the Dataset's labels,
    and in the Dataset's order: the result is the Dataset with the other
    rows struck out. *)
Theorem filter_engine_selects (df : DataFrame) (country city : string) :
  validated df →
  ∃ f, filtered_df df (Str country) (Str city) = Ok f
    ∧ columns f = columns df
    ∧ rows f = filter (selected df country city) (rows df)
    ∧ (∀ r, r ∈ rows f ↔ r ∈ rows df ∧ selected df country city r)
    ∧ rows f `sublist_of` rows df.
Proof.
  intros Hv. exists (working_subset df country city).
  split_and!; [by apply filtered_df_spec|done|done| |].
  - intros r. simpl. rewrite list_elem_of_filter. tauto.
  - apply sublist_filter.
Qed.

Lemma filter_engine_selects_example :
  validated example
  ∧ ∃ f, filtered_df example (Str "X") (Str "All") = Ok f
      ∧ columns f = columns example
      ∧ rows f = filter (selected example "X" "All") (rows example)
      ∧ (∀ r, r ∈ rows f ↔ r ∈ rows example ∧ selected example "X" "All" r)
      ∧ rows f `sublist_of` rows example.
Proof.
  split; [exact validated_example|].
  exact (filter_engine_selects example "X" "All" validated_example).
Defined.

(** C8. For every valid Dataset and every pair of choices, lines 76 to
    80 end with [filtered_df] at a new object whose rows are rows of the
    Dataset (in its order), and whose labels and column types are the
    Dataset's, none added, removed or changed; the Dataset itself, and
    every other object of the store, is as it was. *)
Theorem filtering_preserves_schema (h : store) (a : nat) (df : DataFrame)
    (country city : string) :
  validated df → h !! a = Some df →
  ∃ a' h' f,
    filter_block (Str country) (Str city) a h = Ok (a', h')
    ∧ h' !! a' = Some f
    ∧ rows f `sublist_of` rows df
    ∧ (∀ r, r ∈ rows f → r ∈ rows df)
    ∧ columns f = columns df
    ∧ dtypes f = dtypes df
    ∧ a' ≠ a
    ∧ h' !! a = Some df
    ∧ (∀ b o, h !! b = Some o → h' !! b = Some o).
Proof.
  intros Hv Ha.
  destruct (filter_block_spec country city a h df Hv Ha) as (a' & objs & Hrun & Ha' & Hle).
  exists a', (h ++ objs), (working_subset df country city).
  pose proof (lookup_lt_Some _ _ _ Ha) as Hlt.
  split_and!; try done.
  - apply sublist_filter.
  - intros r Hr. simpl in Hr. by apply list_elem_of_filter in Hr as [_ Hr].
  - lia.
  - by apply lookup_app_l_Some.
  - intros b o Hb. by apply lookup_app_l_Some.
Qed.

Lemma filtering_preserves_schema_example :
  validated example ∧ [example] !! 0 = Some example
  ∧ ∃ a' h' f,
      filter_block (Str "X") (Str "All") 0 [example] = Ok (a', h')
      ∧ h' !! a' = Some f
      ∧ rows f `sublist_of` rows example
      ∧ (∀ r, r ∈ rows f → r ∈ rows example)
      ∧ columns f = columns example
      ∧ dtypes f = dtypes example
      ∧ a' ≠ 0
      ∧ h' !! 0 = Some example
      ∧ (∀ b o, [example] !! b = Some o → h' !! b = Some o).
Proof.
  split; [exact validated_example|]. split; [reflexivity|].
  exact (filtering_preserves_schema [example] 0 example "X" "All"
           validated_example eq_refl).
Defined.

(** C9. Filtering is idempotent: the filter applied with the same pair
    of choices to the Working Subset it has produced gives that Working
    Subset again. *)
Theorem filtering_idempotent (df f : DataFrame) (country city : string) :
  validated df →
  filtered_df df (Str country) (Str city) = Ok f →
  filtered_df f (Str country) (Str city) = Ok f.
Proof.
  intros Hv Hf. rewrite filtered_df_spec in Hf by done.
  injection Hf as <-.
  rewrite filtered_df_spec by by apply validated_working_subset.
  f_equal. unfold working_subset at 1 3. simpl. f_equal.
  apply list_filter_filter_l. done.
Qed.

Lemma filtering_idempotent_example :
  validated example
  ∧ filtered_df example (Str "X") (Str "All") = Ok (working_subset example "X" "All")
  ∧ filtered_df (working_subset example "X" "All") (Str "X") (Str "All")
    = Ok (working_subset example "X" "All").
Proof.
  split; [exact validated_example|].
  assert (H : filtered_df example (Str "X") (Str "All")
              = Ok (working_subset example "X" "All")) by reflexivity.
  split; [exact H|].
  exact (filtering_idempotent example _ "X" "All" validated_example H).
Defined.

(** ** The selection domains *)

Lemma getitem_Ok (df : DataFrame) (name : string) (s : Series) :
  getitem df name = Ok s →
  ∃ i, position name (columns df) = Some i ∧ s = column_at i df.
Proof.
  unfold getitem. intros H.
  destruct (filter _ (columns df)) as [|c [|c' l]];
    destruct (position name (columns df)) as [i|]; try discriminate.
  injection H as <-. by exists i.
Qed.

Lemma unique_cells_elem_of (seen l : list cell) (x : cell) :
  x ∈ unique_cells seen l ↔ x ∈ l ∧ x ∉ seen.
Proof.
  revert seen. induction l as [|c l IH]; intros seen; simpl.
  - split; [by intros ?%elem_of_nil|by intros [?%elem_of_nil _]].
  - case_bool_decide as Hc.
    + rewrite IH, elem_of_cons. split; [tauto|].
      intros [[->|?] ?]; [done|tauto].
    + rewrite elem_of_cons, IH, !elem_of_cons.
      destruct (decide (x = c)) as [->|]; tauto.
Qed.

Lemma unique_cells_NoDup (seen l : list cell) : NoDup (unique_cells seen l).
Proof.
  revert seen. induction l as [|c l IH]; intros seen; simpl; [constructor|].
  case_bool_decide; [done|]. constructor; [|done].
  rewrite unique_cells_elem_of, not_elem_of_cons. tauto.
Qed.

Lemma mapM_as_str (l : list cell) (ss : list string) :
  mapM as_str l = Some ss → l = Str <$> ss.
Proof.
  rewrite mapM_Some. induction 1 as [|c s l ss Hc _ IH]; [done|].
  destruct c; simplify_eq/=. by f_equal.
Qed.

Lemma mapM_as_int (l : list cell) (zs : list Z) :
  mapM as_int l = Some zs → l = Int <$> zs.
Proof.
  rewrite mapM_Some. induction 1 as [|c s l ss Hc _ IH]; [done|].
  destruct c; simplify_eq/=. by f_equal.
Qed.

(** [sorted] rearranges, and loses or adds nothing. *)
Lemma sorted_Permutation (l l' : list cell) : sorted l = Ok l' → l' ≡ₚ l.
Proof.
  unfold sorted. intros H.
  destruct (mapM as_str l) as [ss|] eqn:Hs.
  - injection H as <-. rewrite (mapM_as_str _ _ Hs).
    apply fmap_Permutation, merge_sort_Permutation.
  - destruct (mapM as_int l) as [zs|] eqn:Hz; [|done].
    injection H as <-. rewrite (mapM_as_int _ _ Hz).
    apply fmap_Permutation, merge_sort_Permutation.
Qed.

(** An option of a select box is the entry "All" or a value that some
    row holds under the label. *)
Lemma options_elem_of (df : DataFrame) (name : string) (opts : list cell) (c : cell) :
  options df name = Ok opts → c ∈ opts →
  c = Str "All" ∨ (c ≠ NaN ∧ ∃ r, r ∈ rows df ∧ field df name r = c).
Proof.
  unfold options. intros H Hc.
  destruct (getitem df name) as [|s] eqn:Hg; [done|]. simpl in H.
  destruct (sorted (unique (dropna s))) as [|l] eqn:Hs; [done|].
  injection H as <-. apply elem_of_cons in Hc as [->|Hc]; [by left|right].
  rewrite (sorted_Permutation _ _ Hs) in Hc.
  unfold unique, dropna in Hc. simpl in Hc.
  apply unique_cells_elem_of in Hc as [Hc _].
  apply list_elem_of_filter in Hc as [Hn Hc]. split; [done|].
  apply getitem_Ok in Hg as (i & Hi & ->). simpl in Hc.
  apply list_elem_of_fmap in Hc as (r & -> & Hr).
  exists r. split; [done|]. unfold field. by rewrite Hi.
Qed.

Lemma choice_selects_row (df : DataFrame) (name : string) (opts : list cell) (c : string) :
  options df name = Ok opts → Str c ∈ opts → c ≠ "All" →
  ∃ r, r ∈ rows df ∧ field df name r = Str c.
Proof.
  intros Ho Hc Hne. destruct (options_elem_of _ _ _ _ Ho Hc) as [[=]|[_ H]]; done.
Qed.

Lemma filter_nonempty {A} (P : A → Prop) `{!∀ x, Decision (P x)} (l : list A) (x : A) :
  x ∈ l → P x → filter P l ≠ [].
Proof.
  intros Hx HP Hnil. by eapply filter_nil_not_elem_of.
Qed.

Lemma validated_header_only : validated header_only.
Proof.
  split; [|done]. apply (bool_decide_unpack _). by vm_compute.
Qed.

(** C10, as amended.  For every Dataset: a country choice taken from the
    Country domain, other than "All", with the city choice "All", gives
    a Working Subset that is not empty; so does a city choice taken from
    the City domain with the country choice "All"; and when the Dataset
    has a record, an empty Working Subset is reached only with both
    choices set to something other than "All". *)
Theorem choice_from_domain_nonempty (df : DataFrame) :
  validated df →
  (∀ opts c, options df "Country" = Ok opts → Str c ∈ opts → c ≠ "All" →
     ∃ f, filtered_df df (Str c) (Str "All") = Ok f ∧ rows f ≠ [])
  ∧ (∀ opts y, options df "City" = Ok opts → Str y ∈ opts → y ≠ "All" →
       ∃ f, filtered_df df (Str "All") (Str y) = Ok f ∧ rows f ≠ [])
  ∧ (rows df ≠ [] →
     ∀ copts yopts c y f,
       options df "Country" = Ok copts → options df "City" = Ok yopts →
       Str c ∈ copts → Str y ∈ yopts →
       filtered_df df (Str c) (Str y) = Ok f → rows f = [] →
       c ≠ "All" ∧ y ≠ "All").
Proof.
  intros Hv.
  assert (Hcountry : ∀ opts c, options df "Country" = Ok opts → Str c ∈ opts →
            c ≠ "All" → rows (working_subset df c "All") ≠ []).
  { intros opts c Ho Hc Hne.
    destruct (choice_selects_row _ _ _ _ Ho Hc Hne) as (r & Hr & Hf).
    apply (filter_nonempty _ _ r); [done|]. split; [by right|by left]. }
  assert (Hcity : ∀ opts y, options df "City" = Ok opts → Str y ∈ opts →
            y ≠ "All" → rows (working_subset df "All" y) ≠ []).
  { intros opts y Ho Hy Hne.
    destruct (choice_selects_row _ _ _ _ Ho Hy Hne) as (r & Hr & Hf).
    apply (filter_nonempty _ _ r); [done|]. split; [by left|by right]. }
  split_and!.
  - intros opts c Ho Hc Hne. exists (working_subset df c "All").
    split; [by apply filtered_df_spec|by eapply Hcountry].
  - intros opts y Ho Hy Hne. exists (working_subset df "All" y).
    split; [by apply filtered_df_spec|by eapply Hcity].
  - intros Hrows copts yopts c y f Hco Hyo Hc Hy Hf Hnil.
    rewrite filtered_df_spec in Hf by done. injection Hf as <-.
    destruct (decide (c = "All")) as [->|Hc'], (decide (y = "All")) as [->|Hy'];
      [| |
       |done].
    + destruct Hrows. simpl in Hnil. rewrite filter_all in Hnil; [done|].
      apply Forall_forall. intros r _. split; by left.
    + by destruct (Hcity _ _ Hyo Hy Hy').
    + by destruct (Hcountry _ _ Hco Hc Hc').
Qed.

Lemma choice_from_domain_nonempty_example :
  validated example
  ∧ (∀ opts c, options example "Country" = Ok opts → Str c ∈ opts → c ≠ "All" →
       ∃ f, filtered_df example (Str c) (Str "All") = Ok f ∧ rows f ≠ [])
  ∧ (∀ opts y, options example "City" = Ok opts → Str y ∈ opts → y ≠ "All" →
       ∃ f, filtered_df example (Str "All") (Str y) = Ok f ∧ rows f ≠ [])
  ∧ (rows example ≠ [] →
     ∀ copts yopts c y f,
       options example "Country" = Ok copts → options example "City" = Ok yopts →
       Str c ∈ copts → Str y ∈ yopts →
       filtered_df example (Str c) (Str y) = Ok f → rows f = [] →
       c ≠ "All" ∧ y ≠ "All").
Proof.
  split; [exact validated_example|].
  exact (choice_from_domain_nonempty example validated_example).
Defined.

(** C10 as it is stated fails on the Dataset without records: the table
    is what an upload of the header line alone loads to, both choices
    are "All", which both domains offer, and the Working Subset is
    empty. *)
Lemma empty_dataset_is_empty_under_All :
  load header_line = Ok header_only
  ∧ validated header_only
  ∧ options header_only "Country" = Ok [Str "All"]
  ∧ options header_only "City" = Ok [Str "All"]
  ∧ filtered_df header_only (Str "All") (Str "All") = Ok header_only
  ∧ ¬ (∀ copts yopts c y f,
         options header_only "Country" = Ok copts →
         options header_only "City" = Ok yopts →
         Str c ∈ copts → Str y ∈ yopts →
         filtered_df header_only (Str c) (Str y) = Ok f → rows f = [] →
         c ≠ "All" ∧ y ≠ "All").
Proof.
  split_and!; [by vm_compute|exact validated_header_only|done..|].
  intros H.
  destruct (H [Str "All"] [Str "All"] "All" "All" header_only) as [Hc _];
    [done|done|by left|by left|done|done|].
  by apply Hc.
Qed.

(** ** The key indicators *)


Lemma fmap_as_str {A} (g : A → cell) (l : list A) :
  Forall (λ r, is_Some (as_str (g r))) l →
  g <$> l = Str <$> omap (λ r, as_str (g r)) l.
Proof.
  induction 1 as [|r l [z Hz] _ IH]; [done|].
  rewrite fmap_cons. simpl. rewrite Hz. simpl. rewrite IH.
  f_equal. by destruct (g r); simplify_eq/=.
Qed.


Lemma validated_AQI_Value (df : DataFrame) : validated df → "AQI Value" ∈ columns df.
Proof.
  intros [_ Hm]. apply missing_nil_required; [done|].
  unfold required_columns. elem_of_list.
Qed.







(** *** Rounding to one decimal *)


(** *** The maximum *)



(** *** The most frequent category *)

#[global] Instance Str_inj : Inj (=) (=) Str.
Proof. by intros s t [= ->]. Qed.

#[global] Instance Int_inj : Inj (=) (=) Int.
Proof. by intros s t [= ->]. Qed.



Lemma mapM_as_str_total (l : list cell) :
  (∀ c, c ∈ l → ∃ s, c = Str s) → ∃ ss, mapM as_str l = Some ss ∧ l = Str <$> ss.
Proof.
  intros Hl. destruct (mapM as_str l) as [ss|] eqn:Hs.
  - exists ss. split; [done|]. by apply mapM_as_str.
  - assert (is_Some (mapM as_str l)) as [? ?]; [|congruence].
    apply mapM_is_Some, Forall_forall. intros c Hc.
    destruct (Hl c Hc) as [t ->]. by eexists.
Qed.



(** *** The indicators of a Working Subset *)



Lemma mean_empty (s : Series) : s_values s = [] → mean s = Ok nan.
Proof.
  intros Hs. unfold mean, numbers, all_missing. rewrite Hs. by destruct (s_dtype s).
Qed.

Lemma series_max_empty (s : Series) : s_values s = [] → series_max s = Ok NaN.
Proof.
  intros Hs. unfold series_max, numbers, all_missing. rewrite Hs. by destruct (s_dtype s).
Qed.


(** C1, as the code has it.  For an empty Working Subset the run shows
    the count 0 and the average not-a-number, and then ends in the
    [ValueError] of [int(nan)]: no maximum and no dominant category is
    shown, and no fallback value takes their place. *)
Theorem metrics_empty_raises (f : DataFrame) :
  validated f → rows f = [] →
  metrics f =
    ([st_columns 4;
      st_metric "Locations" (v_int 0);
      st_metric "Average AQI" (v_float nan)],
     raise (ValueError "cannot convert float NaN to integer")).
Proof.
  intros Hv Hnil.
  destruct (getitem_present f "AQI Value") as (i & Hi & Hg);
    [apply Hv|by apply validated_AQI_Value|].
  assert (Hs : s_values (column_at i f) = []) by (simpl; by rewrite Hnil).
  unfold metrics. rewrite Hg, Hnil. simpl.
  rewrite (mean_empty _ Hs), (series_max_empty _ Hs). done.
Qed.




Lemma metrics_empty_raises_example :
  filtered_df example (Str "X") (Str "C") = Ok (working_subset example "X" "C")
  ∧ validated (working_subset example "X" "C")
  ∧ rows (working_subset example "X" "C") = []
  ∧ metrics (working_subset example "X" "C") =
      ([st_columns 4;
        st_metric "Locations" (v_int 0);
        st_metric "Average AQI" (v_float nan)],
       raise (ValueError "cannot convert float NaN to integer")).
Proof.
  assert (Hv : validated (working_subset example "X" "C"))
    by exact (validated_working_subset example "X" "C" validated_example).
  assert (Hnil : rows (working_subset example "X" "C") = []) by reflexivity.
  split; [reflexivity|]. split; [exact Hv|]. split; [exact Hnil|].
  exact (metrics_empty_raises (working_subset example "X" "C") Hv Hnil).
Defined.

(** ** The check of the required columns *)

(** The list the check shows: the required labels that the table lacks,
    in the order of [required_columns]. *)
Lemma elem_of_missing (df : DataFrame) (col : string) :
  col ∈ missing df ↔ col ∈ required_columns ∧ col ∉ columns df.
Proof. unfold missing. rewrite list_elem_of_filter. tauto. Qed.

Lemma missing_sublist (df : DataFrame) : missing df `sublist_of` required_columns.
Proof. apply sublist_filter. Qed.

(** A table that loads and lacks required columns: the run shows the
    error and the list of the missing labels and stops; nothing else is
    shown after the top of the page. *)
Lemma schema_error_halts (file : string) (df : DataFrame) (country city pollutant : cell) :
  load file = Ok df → missing df ≠ [] →
  script (Some file) country city pollutant =
    (page_top ++ [st_error "❌ Dataset is missing required columns:";
                  st_write_list (missing df)],
     raise StopException).
Proof.
  intros Hload Hm. unfold script. simpl. rewrite Hload. simpl.
  unfold dashboard, check_columns.
  destruct (missing df) as [|c l] eqn:Hmiss; [done|]. done.
Qed.

(** C2, as the code has it.  An upload without the column lat is
    reported as exactly [lat] and the run stops.  An upload without the
    column Country, or without the column City, is not reported: line 36
    or 37 selects the column before the check and the run ends in a
    [KeyError], the check never reached. *)
Theorem missing_country_or_city_raises (country city pollutant : cell) :
  script (Some upload_without_lat) country city pollutant =
    (page_top ++ [st_error "❌ Dataset is missing required columns:";
                  st_write_list ["lat"]],
     raise StopException)
  ∧ script (Some upload_without_Country) country city pollutant =
      (page_top, raise (KeyError "Country"))
  ∧ script (Some upload_without_City) country city pollutant =
      (page_top, raise (KeyError "City")).
Proof. split_and!; reflexivity. Qed.

(** ** The selection domains after the load *)


(** ** The ranking of the ten highest AQI values *)

#[global] Instance desc_total : Total desc.
Proof.
  intros [|x|s] [|y|t]; simpl; try tauto.
  - lia.
  - apply (total String.le).
Qed.

#[global] Instance desc_trans : Transitive desc.
Proof.
  intros [|x|s] [|y|t] [|z|u]; simpl; try tauto; try lia.
  intros H1 H2. by trans t.
Qed.

#[global] Instance desc_at_total i : Total (desc_at i).
Proof. intros r1 r2. apply (total desc). Qed.

#[global] Instance desc_at_trans i : Transitive (desc_at i).
Proof. intros r1 r2 r3. apply (transitivity (R := desc)). Qed.

Lemma StronglySorted_weaken {A} (R R' : relation A) (l : list A) :
  (∀ x y, x ∈ l → y ∈ l → R x y → R' x y) →
  StronglySorted R l → StronglySorted R' l.
Proof.
  intros HR Hs. induction Hs as [|x l Hs IH Hx]; [constructor|].
  constructor.
  - apply IH. intros y z Hy Hz. apply HR; by right.
  - apply Forall_forall. intros y Hy. apply HR; [by left|by right|].
    by apply (proj1 (Forall_forall _ _) Hx).
Qed.







(** ** Reading what the writer wrote *)

Lemma chars_text (l : list ascii) : chars (text l) = l.
Proof. induction l as [|a l IH]; [done|]. simpl. by f_equal. Qed.

Lemma text_chars (s : string) : text (chars s) = s.
Proof. induction s as [|a s IH]; [done|]. simpl. by f_equal. Qed.

Lemma special_false (a : ascii) :
  special a = false → a ≠ creturn → ordinary a.
Proof.
  unfold special, ordinary. intros H Hcr.
  apply orb_false_iff in H as [[H1 H2]%orb_false_iff H3].
  apply bool_decide_eq_false in H1, H2, H3. done.
Qed.

Ltac chars_differ :=
  repeat match goal with
  | H : ordinary _ |- _ => destruct H as (? & ? & ? & ?)
  end;
  repeat first
    [ rewrite bool_decide_eq_true_2 by done
    | rewrite bool_decide_eq_false_2 by (done || (unfold comma, dquote, newline, creturn, space, tab; discriminate)) ].

(** The steps of the tokenizer that reading a written field takes. *)

Ltac tok_step :=
  unfold tokenize_byte, start_record, start_field, in_field; simpl;
  chars_differ; simpl; try done.

Lemma step_in_field a w ln lns :
  ordinary a →
  tokenize_byte (mkTok IN_FIELD w ln lns) a = mkTok IN_FIELD (a :: w) ln lns.
Proof. intros. tok_step. Qed.

Lemma step_start_field a ln lns :
  ordinary a →
  tokenize_byte (mkTok START_FIELD [] ln lns) a = mkTok IN_FIELD [a] ln lns.
Proof. intros. tok_step. Qed.

Lemma step_whitespace_line a w lns :
  ordinary a →
  ∃ st, tokenize_byte (mkTok WHITESPACE_LINE w [] lns) a = mkTok st (a :: w) [] lns
      ∧ (st = WHITESPACE_LINE ∨ st = IN_FIELD).
Proof.
  intros. tok_step.
  destruct (bool_decide (a = space) || bool_decide (a = tab)).
  - exists WHITESPACE_LINE. split; [done|by left].
  - exists IN_FIELD. split; [tok_step|by right].
Qed.

Lemma step_start_record a lns :
  ordinary a →
  ∃ st, tokenize_byte (mkTok START_RECORD [] [] lns) a = mkTok st [a] [] lns
      ∧ (st = WHITESPACE_LINE ∨ st = IN_FIELD).
Proof.
  intros. tok_step.
  destruct (bool_decide (a = space) || bool_decide (a = tab)).
  - exists WHITESPACE_LINE. split; [done|by left].
  - exists IN_FIELD. split; [tok_step|by right].
Qed.

Lemma step_quoted a w ln lns :
  a ≠ dquote →
  tokenize_byte (mkTok IN_QUOTED_FIELD w ln lns) a = mkTok IN_QUOTED_FIELD (a :: w) ln lns.
Proof. intros. tok_step. Qed.

Lemma step_quoted_dquote w ln lns :
  tokenize_byte (mkTok IN_QUOTED_FIELD w ln lns) dquote
  = mkTok QUOTE_IN_QUOTED_FIELD w ln lns.
Proof. tok_step. Qed.

Lemma step_quote_in_quoted_dquote w ln lns :
  tokenize_byte (mkTok QUOTE_IN_QUOTED_FIELD w ln lns) dquote
  = mkTok IN_QUOTED_FIELD (dquote :: w) ln lns.
Proof. tok_step. Qed.

Lemma step_open_quote st ln lns :
  st = START_RECORD ∨ st = START_FIELD →
  tokenize_byte (mkTok st [] ln lns) dquote = mkTok IN_QUOTED_FIELD [] ln lns.
Proof. intros [->| ->]; tok_step. Qed.

Lemma step_comma st w ln lns :
  field_read st ∨ st = WHITESPACE_LINE ∨ (st = START_RECORD ∧ w = []) →
  tokenize_byte (mkTok st w ln lns) comma
  = mkTok START_FIELD [] (text (reverse w) :: ln) lns.
Proof. intros [[->|[->| ->]]|[->|[-> ->]]]; tok_step. Qed.

Lemma step_newline st w ln lns :
  field_read st →
  tokenize_byte (mkTok st w ln lns) newline
  = mkTok START_RECORD [] [] (reverse (text (reverse w) :: ln) :: lns).
Proof. intros [->|[->| ->]]; tok_step. Qed.

Lemma in_field_run (l w : list ascii) (ln : list string) (lns : list (list string)) :
  Forall ordinary l →
  foldl tokenize_byte (mkTok IN_FIELD w ln lns) l = mkTok IN_FIELD (reverse l ++ w) ln lns.
Proof.
  intros Hl. revert w. induction Hl as [|a l Ha _ IH]; intros w; [done|].
  simpl. rewrite step_in_field by done.
  rewrite IH, reverse_cons, <-(assoc_L (++)). done.
Qed.

Lemma whitespace_line_run (l w : list ascii) (lns : list (list string)) :
  Forall ordinary l →
  ∃ st, foldl tokenize_byte (mkTok WHITESPACE_LINE w [] lns) l
        = mkTok st (reverse l ++ w) [] lns
      ∧ (st = WHITESPACE_LINE ∨ st = IN_FIELD).
Proof.
  intros Hl. revert w. induction Hl as [|a l Ha Hl IH]; intros w.
  { exists WHITESPACE_LINE. by split; [|left]. }
  simpl. destruct (step_whitespace_line a w lns Ha) as (st & -> & [->| ->]).
  - destruct (IH (a :: w)) as (st & -> & Hst).
    exists st. by rewrite reverse_cons, <-(assoc_L (++)).
  - exists IN_FIELD. split; [|by right].
    by rewrite in_field_run, reverse_cons, <-(assoc_L (++)).
Qed.

(** An unquoted field read from the start of a field, or from the start
    of a record: the field is in [word]. *)
Lemma unquoted_run (st : tstate) (l : list ascii) (ln : list string)
    (lns : list (list string)) :
  st = START_FIELD ∨ (st = START_RECORD ∧ ln = []) →
  Forall ordinary l →
  ∃ st', foldl tokenize_byte (mkTok st [] ln lns) l = mkTok st' (reverse l) ln lns
       ∧ (field_read st' ∨ st' = WHITESPACE_LINE ∨ (st' = START_RECORD ∧ l = [])).
Proof.
  intros Hst Hl. destruct Hl as [|a l Ha Hl].
  { exists st. split; [done|]. destruct Hst as [->|[-> _]]; [left; by left|by do 2 right]. }
  simpl. destruct Hst as [->|[-> ->]].
  - rewrite step_start_field by done. exists IN_FIELD.
    rewrite in_field_run, reverse_cons by done. split; [done|]. left. right. by left.
  - destruct (step_start_record a lns Ha) as (st & -> & [->| ->]).
    + destruct (whitespace_line_run l [a] lns Hl) as (st & -> & [->| ->]).
      * exists WHITESPACE_LINE. rewrite reverse_cons. split; [done|]. right. by left.
      * exists IN_FIELD. rewrite reverse_cons. split; [done|]. left. right. by left.
    + exists IN_FIELD. rewrite in_field_run, reverse_cons by done.
      split; [done|]. left. right. by left.
Qed.

Lemma quoted_run (l w : list ascii) (ln : list string) (lns : list (list string)) :
  foldl tokenize_byte (mkTok IN_QUOTED_FIELD w ln lns) (escape l)
  = mkTok IN_QUOTED_FIELD (reverse l ++ w) ln lns.
Proof.
  revert w. induction l as [|a l IH]; intros w; [done|].
  unfold escape in *. rewrite bind_cons, foldl_app.
  destruct (decide (a = dquote)) as [->|Ha].
  - rewrite bool_decide_eq_true_2 by done. simpl.
    rewrite step_quoted_dquote, step_quote_in_quoted_dquote.
    by rewrite IH, reverse_cons, <-(assoc_L (++)).
  - rewrite (bool_decide_eq_false_2 _ Ha). simpl. rewrite step_quoted by done.
    by rewrite IH, reverse_cons, <-(assoc_L (++)).
Qed.

(** A written field, read from the start of a field or of a record. *)
Lemma write_field_run (st : tstate) (field : string) (ln : list string)
    (lns : list (list string)) :
  st = START_FIELD ∨ (st = START_RECORD ∧ ln = []) →
  no_creturn field →
  ∃ st' w,
    foldl tokenize_byte (mkTok st [] ln lns) (write_field field) = mkTok st' w ln lns
    ∧ text (reverse w) = field
    ∧ (field_read st' ∨ st' = WHITESPACE_LINE ∨ (st' = START_RECORD ∧ w = []))
    ∧ (st = START_FIELD → field_read st').
Proof.
  intros Hst Hcr. unfold write_field.
  destruct (needs_quotes (chars field)) eqn:Hq.
  - exists QUOTE_IN_QUOTED_FIELD, (reverse (chars field)).
    rewrite reverse_involutive, text_chars. split_and!; [|done|..].
    + simpl. rewrite step_open_quote by (destruct Hst as [->|[-> _]]; auto).
      rewrite foldl_app, quoted_run. simpl.
      by rewrite step_quoted_dquote, (right_id_L [] (++)).
    + left. by do 2 right.
    + intros _. by do 2 right.
  - assert (Hord : Forall ordinary (chars field)).
    { unfold needs_quotes in Hq. apply Forall_forall. intros a Ha.
      apply special_false.
      - destruct (special a) eqn:Hs; [|done].
        assert (existsb special (chars field) = true) as Hex; [|congruence].
        apply existsb_exists. exists a. split; [|done]. by apply list_elem_of_In.
      - by apply (proj1 (Forall_forall _ _) Hcr). }
    destruct (unquoted_run st (chars field) ln lns Hst Hord) as (st' & Hrun & Hst').
    exists st', (reverse (chars field)).
    rewrite reverse_involutive, text_chars. split_and!; [done|done| |].
    + destruct Hst' as [?|[?|[? Hnil]]]; [by left|right; by left|].
      do 2 right. split; [done|]. by rewrite Hnil.
    + intros ->. destruct Hst' as [?|[->|[-> _]]]; [done| |].
      * destruct Hord as [|a l Ha Hl]; simpl in Hrun; [done|].
        rewrite step_start_field, in_field_run in Hrun by done. done.
      * destruct Hord as [|a l Ha Hl]; simpl in Hrun; [done|].
        rewrite step_start_field, in_field_run in Hrun by done. done.
Qed.

(** The fields of a record after the first, up to the end of the line. *)
Lemma fields_run (fields ln : list string) (lns : list (list string)) :
  fields ≠ [] → Forall no_creturn fields →
  foldl tokenize_byte (mkTok START_FIELD [] ln lns)
    (join (write_field <$> fields) ++ [newline])
  = mkTok START_RECORD [] [] ((reverse ln ++ fields) :: lns).
Proof.
  intros Hne Hcr. revert ln. induction Hcr as [|f fields Hf Hfs IH]; intros ln; [done|].
  destruct (write_field_run START_FIELD f ln lns) as (st & w & Hrun & Hw & _ & Hst);
    [by left|done|].
  destruct fields as [|g fields].
  - change (join (write_field <$> [f])) with (write_field f).
    rewrite foldl_app, Hrun. simpl.
    rewrite step_newline by auto. by rewrite Hw, reverse_cons.
  - change (join (write_field <$> f :: g :: fields))
      with (write_field f ++ comma :: join (write_field <$> g :: fields)).
    rewrite <-(assoc_L (++)), foldl_app, Hrun. simpl.
    rewrite step_comma by auto. rewrite Hw, IH by done.
    by rewrite reverse_cons, <-(assoc_L (++)).
Qed.

Lemma write_row_join (fields : list string) :
  2 ≤ length fields → write_row fields = join (write_field <$> fields) ++ [newline].
Proof. destruct fields as [|[|a f] [|g fields]]; simpl; try lia; done. Qed.

(** A written record of two fields or more is read as that record. *)
Lemma write_row_run (fields : list string) (lns : list (list string)) :
  2 ≤ length fields → Forall no_creturn fields →
  foldl tokenize_byte (mkTok START_RECORD [] [] lns) (write_row fields)
  = mkTok START_RECORD [] [] (fields :: lns).
Proof.
  intros Hlen Hcr. rewrite write_row_join by done.
  destruct fields as [|f [|g fields]]; simpl in Hlen; [lia..|].
  apply Forall_cons in Hcr as [Hf Hcr].
  destruct (write_field_run START_RECORD f [] lns) as (st & w & Hrun & Hw & Hst & _);
    [by right|done|].
  change (join (write_field <$> f :: g :: fields))
    with (write_field f ++ comma :: join (write_field <$> g :: fields)).
  rewrite <-(assoc_L (++)), foldl_app, Hrun. simpl.
  rewrite step_comma by done. rewrite Hw.
  by apply (fields_run (g :: fields) [f] lns).
Qed.

Lemma write_rows_run (records : list (list string)) (lns : list (list string)) :
  Forall (λ fields, 2 ≤ length fields ∧ Forall no_creturn fields) records →
  foldl tokenize_byte (mkTok START_RECORD [] [] lns) (records ≫= write_row)
  = mkTok START_RECORD [] [] (reverse records ++ lns).
Proof.
  intros Hr. revert lns. induction Hr as [|fields records [Hlen Hcr] _ IH]; intros lns.
  - done.
  - rewrite bind_cons, foldl_app, write_row_run, IH by done.
    by rewrite reverse_cons, <-(assoc_L (++)).
Qed.

(** The tokenizer reads the records that the writer wrote. *)
Lemma tokenize_written (records : list (list string)) :
  Forall (λ fields, 2 ≤ length fields ∧ Forall no_creturn fields) records →
  tokenize (text (records ≫= write_row)) = Ok records.
Proof.
  intros Hr. unfold tokenize. rewrite chars_text, write_rows_run by done.
  unfold handle_eof. simpl. by rewrite (right_id_L [] (++)), reverse_involutive.
Qed.

(** ** Integers written and read *)

Lemma digit_pretty_N_char (d : N) :
  (d < 10)%N →
  digit (pretty_N_char d) = Some (Z.of_N d)
  ∧ isspace_ascii (pretty_N_char d) = false
  ∧ pretty_N_char d ≠ "-"%char ∧ pretty_N_char d ≠ "+"%char
  ∧ ordinary (pretty_N_char d).
Proof.
  intros Hd.
  assert (d = 0 ∨ d = 1 ∨ d = 2 ∨ d = 3 ∨ d = 4 ∨ d = 5 ∨ d = 6 ∨ d = 7 ∨ d = 8 ∨ d = 9)%N
    as Hcases by lia.
  unfold ordinary.
  destruct Hcases as [->|[->|[->|[->|[->|[->|[->|[->|[->| ->]]]]]]]]]; by vm_compute.
Qed.



Lemma chars_pretty_N_go_Forall (P : ascii → Prop) (x : N) (s : string) :
  (∀ d, (d < 10)%N → P (pretty_N_char d)) →
  Forall P (chars s) → Forall P (chars (pretty_N_go x s)).
Proof.
  intros HP. revert s. induction (N.lt_wf_0 x) as [x _ IH]; intros s Hs.
  destruct (decide (x = 0)%N) as [->|Hx]; [done|].
  rewrite pretty_N_go_step by lia. apply IH; [apply N.div_lt; lia|].
  simpl. constructor; [|done]. apply HP, N.mod_lt. lia.
Qed.

Lemma pretty_positive_eq (p : positive) : pretty p = pretty_N_go (N.pos p) "".
Proof. done. Qed.


Lemma chars_app (s1 s2 : string) : chars (s1 +:+ s2) = chars s1 ++ chars s2.
Proof.
  induction s1 as [|a s1 IH]; [done|].
  change (a :: chars (s1 +:+ s2) = a :: (chars s1 ++ chars s2)). by f_equal.
Qed.


Lemma chars_pretty_Z (z : Z) :
  chars (pretty z) =
    match z with
    | Z0 => ["0"%char]
    | Zpos p => chars (pretty p)
    | Zneg p => "-"%char :: chars (pretty p)
    end.
Proof. by destruct z. Qed.


Lemma chars_pretty_point_zero (z : Z) :
  chars (pretty z +:+ ".0") = chars (pretty z) ++ point_zero.
Proof. by rewrite chars_app. Qed.


Lemma pretty_Z_ordinary (z : Z) : Forall ordinary (chars (pretty z)).
Proof.
  assert (Hpos : ∀ p : positive, Forall ordinary (chars (pretty p))).
  { intros p. rewrite pretty_positive_eq. apply chars_pretty_N_go_Forall; [|done].
    intros d Hd. by destruct (digit_pretty_N_char d Hd) as (_ & _ & _ & _ & ?). }
  rewrite chars_pretty_Z. destruct z as [|p|p].
  - by repeat constructor.
  - apply Hpos.
  - constructor; [by repeat split|apply Hpos].
Qed.




(** ** Columns written and read *)







Lemma infer_dtype_cons (fields : list string) :
  fields ≠ [] →
  infer_dtype fields =
    if forallb int_or_na fields
    then if existsb is_na fields then float64 else int64
    else if forallb whole_or_na fields then float64
    else object.
Proof. by destruct fields. Qed.



(** ** Tables written and read *)



Lemma field_at_format_row (ts : list dtype) (n j : nat) (r : list cell) :
  j < n →
  field_at j (format_row ts n r) = format_cell (default object (ts !! j)) (cell_at j r).
Proof.
  intros Hj. unfold field_at, format_row.
  by rewrite list_lookup_fmap, lookup_seq_lt.
Qed.











(** ** Runs of the script *)

(** A select box returns one of its options. *)
Lemma choose_elem_of (options : list cell) (choice : cell) :
  options ≠ [] → choose options choice ∈ options.
Proof.
  intros Hne. unfold choose. case_bool_decide; [done|].
  destruct options as [|o options]; [done|]. by left.
Qed.

(** Without an upload the run asks for one and stops. *)
Lemma run_without_upload (country city pollutant : cell) :
  script None country city pollutant =
    (page_top ++ [st_info "👆 Please upload the AQI dataset to begin analysis."],
     raise StopException).
Proof. reflexivity. Qed.

Lemma load_example_upload : load example_upload = Ok example.
Proof. by vm_compute. Qed.

(** The run on the example with the country X chosen: to the last line,
    with the four indicators and the four charts. *)
Lemma run_on_example :
  (script (Some example_upload) (Str "X") (Str "All") NaN).2 = Ok ()
  ∧ indicators (script (Some example_upload) (Str "X") (Str "All") NaN).1
    = [("Locations", v_int 2); ("Average AQI", v_float (ratio 650 10));
       ("Max AQI", v_int 80); ("Dominant Category", v_obj (Str "Good"))]
  ∧ length (shown_charts (script (Some example_upload) (Str "X") (Str "All") NaN).1) = 4.
Proof. split_and!; by vm_compute. Qed.

(** The run on the example with the country X and the city C chosen,
    both offered by the select boxes: it ends in the [ValueError] after
    two indicators, and shows no chart and no download. *)
Lemma run_on_example_empty_selection :
  script (Some example_upload) (Str "X") (Str "C") NaN =
    (page_top ++
     [st_subheader "📄 Dataset Preview";
      st_dataframe (head 5 example);
      st_sidebar_header "🔍 Filters";
      st_sidebar_selectbox "Select Country" [Str "All"; Str "X"; Str "Y"];
      st_sidebar_selectbox "Select City" [Str "All"; Str "A"; Str "B"; Str "C"];
      st_subheader "📊 Key AQI Indicators";
      st_columns 4;
      st_metric "Locations" (v_int 0);
      st_metric "Average AQI" (v_float nan)],
     raise (ValueError "cannot convert float NaN to integer")).
Proof. by vm_compute. Qed.

(** ** White space at the two ends of a text *)

Lemma chars_inj (s1 s2 : string) : chars s1 = chars s2 → s1 = s2.
Proof. intros H. by rewrite <-(text_chars s1), <-(text_chars s2), H. Qed.

Lemma chars_rev_app (s1 s2 : string) :
  chars (String.rev_app s1 s2) = reverse (chars s1) ++ chars s2.
Proof.
  revert s2. induction s1 as [|a s1 IH]; intros s2; [done|].
  simpl. rewrite IH, reverse_cons, <-(assoc_L (++)). done.
Qed.

Lemma chars_rev (s : string) : chars (String.rev s) = reverse (chars s).
Proof. unfold String.rev. rewrite chars_rev_app. simpl. apply (right_id_L [] (++)). Qed.

Lemma rev_rev (s : string) : String.rev (String.rev s) = s.
Proof. apply chars_inj. by rewrite !chars_rev, reverse_involutive. Qed.

Lemma lstrip_spec (s : string) :
  ∃ pre, chars s = pre ++ chars (lstrip s)
       ∧ Forall (λ a, is_space a = true) pre
       ∧ (∀ a, chars (lstrip s) !! 0 = Some a → is_space a = false).
Proof.
  induction s as [|a s (pre & Hs & Hpre & Hhead)].
  - exists []. split_and!; [done|constructor|done].
  - simpl. destruct (is_space a) eqn:Ha.
    + exists (a :: pre). split_and!; [by rewrite Hs at 1|by constructor|done].
    + exists []. split_and!; [done|constructor|]. intros b [= <-]. done.
Qed.

Lemma rstrip_spec (s : string) :
  ∃ post, chars s = chars (rstrip s) ++ post
        ∧ Forall (λ a, is_space a = true) post
        ∧ (∀ a, last (chars (rstrip s)) = Some a → is_space a = false).
Proof.
  destruct (lstrip_spec (String.rev s)) as (pre & Hs & Hpre & Hhead).
  exists (reverse pre). unfold rstrip. rewrite chars_rev. split_and!.
  - rewrite <-reverse_app, <-Hs, chars_rev, reverse_involutive. done.
  - by apply Forall_reverse.
  - intros a Ha. rewrite last_reverse in Ha. apply Hhead.
    by destruct (chars (lstrip (String.rev s))).
Qed.

Lemma lstrip_fixed (s : string) :
  (∀ a, chars s !! 0 = Some a → is_space a = false) → lstrip s = s.
Proof. destruct s as [|a s]; [done|]. intros H. simpl. by rewrite (H a). Qed.

Lemma rstrip_fixed (s : string) :
  (∀ a, last (chars s) = Some a → is_space a = false) → rstrip s = s.
Proof.
  intros H. unfold rstrip. rewrite lstrip_fixed; [apply rev_rev|].
  intros a Ha. apply H. rewrite chars_rev in Ha. rewrite <-head_reverse.
  by destruct (reverse (chars s)).
Qed.

Lemma trimmed_strip (s : string) : trimmed s → strip s = s.
Proof.
  intros [H1 H2]. unfold strip. rewrite (lstrip_fixed s H1). by apply rstrip_fixed.
Qed.

Lemma strip_spec (s : string) :
  ∃ pre post,
    chars s = pre ++ chars (strip s) ++ post
    ∧ Forall (λ a, is_space a = true) pre
    ∧ Forall (λ a, is_space a = true) post
    ∧ trimmed (strip s).
Proof.
  destruct (lstrip_spec s) as (pre & Hs & Hpre & Hhead).
  destruct (rstrip_spec (lstrip s)) as (post & Hl & Hpost & Hlast).
  exists pre, post. unfold strip. split_and!; [by rewrite Hs at 1; rewrite Hl at 1|done..|].
  split; [|done]. intros a Ha. apply Hhead. rewrite Hl.
  by apply lookup_app_l_Some.
Qed.

Lemma strip_trimmed (s : string) : trimmed (strip s).
Proof. by destruct (strip_spec s) as (? & ? & _ & _ & _ & ?). Qed.

Lemma strip_strip (s : string) : strip (strip s) = strip s.
Proof. apply trimmed_strip, strip_trimmed. Qed.


(** ** The normalization of lines 36 and 37 *)

Lemma cell_at_set_cell (i j : nat) (c : cell) (r : list cell) :
  cell_at j (set_cell i c r) = if decide (j = i) then c else cell_at j r.
Proof.
  unfold cell_at, set_cell. destruct (decide (j = i)) as [->|Hne].
  - rewrite list_lookup_insert_eq; [done|]. rewrite length_app, length_replicate. lia.
  - rewrite list_lookup_insert_ne by done.
    destruct (decide (j < length r)) as [Hlt|Hge].
    + by rewrite lookup_app_l.
    + rewrite lookup_app_r by lia. rewrite (lookup_ge_None_2 r j) by lia.
      destruct (replicate _ _ !! _) as [c'|] eqn:Hc; [|done].
      by apply lookup_replicate in Hc as [-> _].
Qed.


Lemma position_elem_of (name : string) (cols : list string) (i : nat) :
  position name cols = Some i → name ∈ cols.
Proof.
  unfold position. destruct (list_find _ _) as [[k y]|] eqn:Hf; [|done].
  intros _. apply list_find_Some in Hf as (Hk & -> & _). by eapply list_elem_of_lookup_2.
Qed.

Lemma position_inj (x y : string) (cols : list string) (i : nat) :
  position x cols = Some i → position y cols = Some i → x = y.
Proof.
  unfold position. intros Hx Hy.
  destruct (list_find (λ c, c = x) cols) as [[k a]|] eqn:Hfx; [|done].
  destruct (list_find (λ c, c = y) cols) as [[k' b]|] eqn:Hfy; [|done].
  simpl in *. simplify_eq.
  apply list_find_Some in Hfx as (Hk & -> & _).
  apply list_find_Some in Hfy as (Hk' & -> & _). congruence.
Qed.

(** The table that [clean] gives. *)
Lemma clean_spec (df : DataFrame) (name : string) (i : nat) :
  NoDup (columns df) → position name (columns df) = Some i →
  clean df name =
    Ok {| columns := columns df;
          dtypes := <[i := object]> (dtypes df ++ replicate (S i - length (dtypes df)) object);
          rows := (λ r, set_cell i
                          (Str (strip (py_str (default object (dtypes df !! i)) (cell_at i r)))) r)
                  <$> rows df |}.
Proof.
  intros Hnd Hi. pose proof (position_elem_of _ _ _ Hi) as Hin.
  destruct (getitem_present df name Hnd Hin) as (i' & Hi' & Hg).
  assert (i' = i) as -> by congruence.
  unfold clean. rewrite Hg. simpl. unfold setitem. rewrite Hi. simpl.
  do 2 f_equal.
  rewrite <-!list_fmap_compose, zip_with_fmap_l, zip_with_diag. done.
Qed.

Lemma clean_inv (df df' : DataFrame) (name : string) :
  clean df name = Ok df' →
  ∃ i, position name (columns df) = Some i ∧ columns df' = columns df.
Proof.
  unfold clean. intros H.
  destruct (getitem df name) as [e|s] eqn:Hg; [done|].
  apply getitem_Ok in Hg as (i & Hi & ->). exists i. split; [done|].
  simpl in H. injection H as <-. unfold setitem. simpl. by rewrite Hi.
Qed.

(** Row by row: the cell under [name] becomes the stripped text of
    what it was, the other cells stay. *)
Lemma clean_rows (df df' : DataFrame) (name : string) :
  NoDup (columns df) → clean df name = Ok df' →
  Forall2 (λ r r',
      field df' name r' = Str (strip (py_str (dtype_of df name) (field df name r)))
      ∧ ∀ other, other ≠ name → field df' other r' = field df other r)
    (rows df) (rows df').
Proof.
  intros Hnd Hc. destruct (clean_inv _ _ _ Hc) as (i & Hi & Hcols).
  rewrite (clean_spec df name i Hnd Hi) in Hc. injection Hc as <-. simpl.
  apply Forall2_fmap_r, Forall_Forall2_diag, Forall_forall. intros r _.
  unfold field, dtype_of. simpl. rewrite Hi. split.
  - rewrite cell_at_set_cell. by rewrite decide_True.
  - intros other Hne. destruct (position other (columns df)) as [j|] eqn:Hj; [|done].
    rewrite cell_at_set_cell. rewrite decide_False; [done|].
    intros ->. destruct Hne. by eapply position_inj.
Qed.




(** X3. The normalization is idempotent: run again on the table it has
    given, lines 36 and 37 give the same table. *)
Theorem clean_idempotent (df df' : DataFrame) (name : string) :
  NoDup (columns df) → clean df name = Ok df' → clean df' name = Ok df'.
Proof.
  intros Hnd Hc. destruct (clean_inv _ _ _ Hc) as (i & Hi & Hcols).
  rewrite (clean_spec df name i Hnd Hi) in Hc. injection Hc as <-.
  rewrite (clean_spec _ name i); [|done..]. simpl. do 2 f_equal.
  - replace (S i - length (<[i:=object]> _)) with 0.
    2:{ rewrite length_insert, length_app, length_replicate. lia. }
    simpl. by rewrite (right_id_L [] (++)), list_insert_insert_eq.
  - rewrite <-list_fmap_compose. apply list_fmap_ext. intros _ r _. simpl.
    rewrite list_lookup_insert_eq
      by (rewrite length_app, length_replicate; lia). simpl.
    rewrite cell_at_set_cell, decide_True by done. simpl. rewrite strip_strip.
    unfold set_cell at 1.
    replace (S i - _) with 0.
    2:{ unfold set_cell. rewrite length_insert, length_app, length_replicate. lia. }
    simpl. rewrite (right_id_L [] (++)). unfold set_cell. by rewrite list_insert_insert_eq.
Qed.

Lemma clean_idempotent_example :
  NoDup (columns example_raw)
  ∧ ∃ df', clean example_raw "Country" = Ok df'
      ∧ field df' "Country" <$> rows df' = [Str "X"; Str "nan"]
      ∧ clean df' "Country" = Ok df'.
Proof.
  assert (Hnd : NoDup (columns example_raw))
    by (apply (bool_decide_unpack _); vm_compute; reflexivity).
  split; [exact Hnd|].
  eexists. split; [reflexivity|]. split; [vm_compute; reflexivity|].
  exact (clean_idempotent example_raw _ "Country" Hnd eq_refl).
Defined.

(** ** The table after the load *)

(** The steps of a load that succeeds. *)
Lemma load_inv (file : string) (df : DataFrame) :
  load file = Ok df →
  ∃ raw df1,
    read_csv file = Ok raw
    ∧ clean (strip_columns raw) "Country" = Ok df1
    ∧ clean df1 "City" = Ok df
    ∧ columns df1 = strip <$> columns raw
    ∧ columns df = strip <$> columns raw.
Proof.
  unfold load. intros H.
  destruct (read_csv file) as [e|raw]; [done|]. simpl in H.
  destruct (clean (strip_columns raw) "Country") as [e|df1] eqn:H1; [done|]. simpl in H.
  destruct (clean_inv _ _ _ H1) as (_ & _ & Hc1).
  destruct (clean_inv _ _ _ H) as (_ & _ & Hc).
  exists raw, df1. split_and!; [done..|]. by rewrite Hc.
Qed.

(** After the load the Country and the City of every row are texts,
    trimmed. *)
Lemma load_texts (file : string) (df : DataFrame) :
  load file = Ok df → NoDup (columns df) →
  ∀ r, r ∈ rows df →
    ∃ country city,
      field df "Country" r = Str country ∧ trimmed country
      ∧ field df "City" r = Str city ∧ trimmed city.
Proof.
  intros Hload Hnd.
  destruct (load_inv _ _ Hload) as (raw & df1 & Hread & H1 & H2 & Hc1 & Hc).
  assert (Hnd0 : NoDup (columns (strip_columns raw))) by (simpl; by rewrite <-Hc).
  assert (Hnd1 : NoDup (columns df1)) by (by rewrite Hc1, <-Hc).
  pose proof (clean_rows _ _ _ Hnd0 H1) as Hr1.
  pose proof (clean_rows _ _ _ Hnd1 H2) as Hr2.
  intros r Hr. apply list_elem_of_lookup_1 in Hr as [k Hk].
  destruct (Forall2_lookup_r _ _ _ _ _ Hr2 Hk) as (r1 & Hk1 & HY & Hother).
  destruct (Forall2_lookup_r _ _ _ _ _ Hr1 Hk1) as (r0 & Hk0 & HC & _).
  eexists _, _. split_and!.
  - rewrite Hother by done. exact HC.
  - apply strip_trimmed.
  - exact HY.
  - apply strip_trimmed.
Qed.

Lemma load_categorical (file : string) (df : DataFrame) :
  load file = Ok df → NoDup (columns df) →
  categorical df "Country" ∧ categorical df "City".
Proof.
  intros Hload Hnd. split; apply Forall_forall; intros r Hr;
    destruct (load_texts _ _ Hload Hnd r Hr) as (c & y & HC & _ & HY & _).
  - by rewrite HC.
  - by rewrite HY.
Qed.



(** ** Column types after the load *)

Lemma convert_typed (fields : list string) (f : string) :
  f ∈ fields → cell_typed (infer_dtype fields) (convert (infer_dtype fields) f).
Proof.
  intros Hin. rewrite infer_dtype_cons by (intros ->; by apply elem_of_nil in Hin).
  unfold convert.
  destruct (forallb int_or_na fields) eqn:Hint.
  - destruct (existsb is_na fields) eqn:Hna.
    + destruct (is_na f); [done|]. by destruct (str_to_whole f).
    + destruct (is_na f) eqn:Hf.
      { assert (existsb is_na fields = true); [|congruence].
        apply existsb_exists. exists f. split; [by apply list_elem_of_In|done]. }
      rewrite forallb_forall in Hint.
      specialize (Hint f (proj1 (list_elem_of_In _ _) Hin)).
      unfold int_or_na in Hint. rewrite Hf in Hint. simpl in Hint.
      apply bool_decide_eq_true in Hint as [z ->]. done.
  - destruct (forallb whole_or_na fields).
    + destruct (is_na f); [done|]. by destruct (str_to_whole f).
    + by destruct (is_na f).
Qed.

Lemma read_csv_well_typed (file : string) (df : DataFrame) :
  read_csv file = Ok df → well_typed df.
Proof.
  unfold read_csv. intros H.
  destruct (tokenize file) as [e|records]; [done|]. simpl in H.
  destruct records as [|header data]; [done|].
  destruct (existsb _ data); [done|]. injection H as <-.
  split; simpl; [by rewrite length_fmap, length_seq|].
  apply Forall_fmap, Forall_forall. intros r Hr. simpl.
  apply Forall2_fmap_r.
  set (lead := _ - length header).
  apply Forall2_fmap_l, Forall_Forall2_diag, Forall_forall.
  intros j [_ Hj]%elem_of_seq. simpl.
  rewrite list_lookup_fmap, lookup_seq_lt by lia. simpl.
  apply convert_typed, list_elem_of_fmap. by exists r.
Qed.

Lemma clean_well_typed (df df' : DataFrame) (name : string) :
  NoDup (columns df) → clean df name = Ok df' → well_typed df → well_typed df'.
Proof.
  intros Hnd Hc [Hlen Hrows]. destruct (clean_inv _ _ _ Hc) as (i & Hi & Hcols).
  rewrite (clean_spec df name i Hnd Hi) in Hc. injection Hc as <-.
  assert (Hlt : i < length (columns df)).
  { unfold position in Hi. destruct (list_find _ _) as [[k y]|] eqn:Hf; [|done].
    apply list_find_Some in Hf as (Hk & _). simpl in Hi. simplify_eq.
    by eapply lookup_lt_Some. }
  assert (Hpad : S i - length (dtypes df) = 0) by lia.
  split; simpl.
  - rewrite length_insert, length_app, length_replicate. lia.
  - apply Forall_fmap, Forall_forall. intros r Hr. simpl.
    pose proof (proj1 (Forall_forall _ _) Hrows r Hr) as Hrow.
    pose proof (Forall2_length _ _ _ Hrow) as Hrl.
    rewrite Hpad. simpl. rewrite (right_id_L [] (++)).
    unfold set_cell. replace (S i - length r) with 0 by lia.
    simpl. rewrite (right_id_L [] (++)).
    apply Forall2_insert; done.
Qed.

(** X5. The table that lines 32 to 37 give, when its labels are
    distinct, is typed column by column: there is one type for each
    label, every row has one cell for each label, a column of 64-bit
    integers holds an integer in every row, a column of floating point
    a number or nothing, a column of objects a text or nothing.  In
    particular a column that the load types as integers is numeric in
    the sense of the data model. *)
Theorem load_well_typed (file : string) (df : DataFrame) :
  load file = Ok df → NoDup (columns df) →
  well_typed df
  ∧ ∀ name, name ∈ columns df → dtype_of df name = int64 →
      Forall (λ r, is_Some (as_int (field df name r))) (rows df).
Proof.
  intros Hload Hnd.
  destruct (load_inv _ _ Hload) as (raw & df1 & Hread & H1 & H2 & Hc1 & Hc).
  assert (Hnd0 : NoDup (columns (strip_columns raw))) by (simpl; by rewrite <-Hc).
  assert (Hnd1 : NoDup (columns df1)) by (by rewrite Hc1, <-Hc).
  assert (Hwt : well_typed df).
  { apply (clean_well_typed df1 _ "City" Hnd1 H2).
    apply (clean_well_typed _ _ "Country" Hnd0 H1).
    destruct (read_csv_well_typed _ _ Hread) as [Hlen Hrows].
    split; simpl; [by rewrite length_fmap|done]. }
  split; [done|]. intros name Hin Ht.
  destruct (position_Some _ _ Hin) as (i & Hi & _).
  destruct Hwt as [Hlen Hrows].
  eapply Forall_impl; [exact Hrows|]. intros r Hrow. simpl.
  unfold field, dtype_of in *. rewrite Hi in *.
  destruct (dtypes df !! i) as [t|] eqn:Hti; simpl in Ht; [subst t|done].
  destruct (Forall2_lookup_l _ _ _ _ _ Hrow Hti) as (c & Hc' & Htyped).
  unfold cell_at. rewrite Hc'. simpl. by destruct c.
Qed.

Lemma load_well_typed_example :
  load example_upload = Ok example
  ∧ NoDup (columns example)
  ∧ well_typed example
  ∧ ∀ name, name ∈ columns example → dtype_of example name = int64 →
      Forall (λ r, is_Some (as_int (field example name r))) (rows example).
Proof.
  assert (Hload : load example_upload = Ok example) by (vm_compute; reflexivity).
  assert (Hnd : NoDup (columns example))
    by (apply (bool_decide_unpack _); vm_compute; reflexivity).
  split; [exact Hload|]. split; [exact Hnd|].
  exact (load_well_typed example_upload example Hload Hnd).
Defined.

(** ** Uploads that do not load *)

Lemma blank_step (t : tokenizer) (a : ascii) :
  between_records t → blank a → between_records (tokenize_byte t a).
Proof.
  intros ([Hs|[Hs|Hs]] & Hl & Hls) Ha; unfold tokenize_byte; rewrite Hs;
    destruct Ha as [-> | [-> | [-> | ->]]]; by repeat split; simpl; auto.
Qed.

Lemma blank_run (l : list ascii) (t : tokenizer) :
  between_records t → Forall blank l → between_records (foldl tokenize_byte t l).
Proof.
  intros Ht Hl. revert t Ht. induction Hl as [|a l Ha _ IH]; intros t Ht; [done|].
  simpl. by apply IH, blank_step.
Qed.

(** An exception of the load ends the run under the top of the page:
    the script catches nothing. *)
Lemma load_raises (file : string) (e : exn) (country city pollutant : cell) :
  load file = raise e →
  script (Some file) country city pollutant = (page_top, raise e).
Proof. intros H. unfold script. simpl. by rewrite H. Qed.

(** X6. An upload without any record (empty, or nothing but blanks,
    tabs and ends of lines) makes read_csv on line 32 raise
    [EmptyDataError]; the script does not catch it: the run ends in that
    exception with nothing but the top of the page shown, no message of
    the script's own. *)
Theorem blank_upload_raises (file : string) (country city pollutant : cell) :
  Forall blank (chars file) →
  script (Some file) country city pollutant = (page_top, raise EmptyDataError).
Proof.
  intros Hb. apply load_raises. unfold load, read_csv, tokenize.
  destruct (blank_run (chars file) (mkTok START_RECORD [] [] [])) as (Hs & _ & Hls);
    [by repeat split; auto|done|].
  unfold handle_eof. by destruct Hs as [-> | [-> | ->]]; rewrite Hls.
Qed.

Lemma blank_upload_raises_example :
  Forall blank (chars (text [newline; space; tab; creturn; newline]))
  ∧ script (Some (text [newline; space; tab; creturn; newline])) NaN NaN NaN
    = (page_top, raise EmptyDataError)
  ∧ script (Some EmptyString) NaN NaN NaN = (page_top, raise EmptyDataError).
Proof.
  assert (H : Forall blank (chars (text [newline; space; tab; creturn; newline])))
    by (simpl; repeat constructor; unfold blank; auto).
  split; [exact H|]. split.
  - exact (blank_upload_raises _ NaN NaN NaN H).
  - exact (blank_upload_raises EmptyString NaN NaN NaN (Forall_nil_2 _)).
Defined.

(** X7. An upload in which a record after the first one has more fields
    than the header and the first record makes read_csv on line 32 raise
    [ParserError]; the run ends in it with nothing but the top of the
    page shown. *)
Theorem wide_record_raises (file : string) (header first : list string)
    (data : list (list string)) (country city pollutant : cell) :
  tokenize file = Ok (header :: first :: data) →
  (∃ r, r ∈ data ∧ length header `max` length first < length r) →
  ∃ msg, script (Some file) country city pollutant = (page_top, raise (ParserError msg)).
Proof.
  intros Htok (r & Hr & Hlen). eexists. apply load_raises.
  unfold load, read_csv. rewrite Htok. simpl.
  destruct (existsb _ data) eqn:Hex; [|].
  - rewrite orb_true_r. reflexivity.
  - assert (existsb (λ r, bool_decide (length header `max` length first < length r)) data
            = true); [|congruence].
    apply existsb_exists. exists r. split; [by apply list_elem_of_In|].
    by apply bool_decide_eq_true.
Qed.

Lemma wide_record_raises_example :
  tokenize upload_wide = Ok [["Country"; "City"]; ["X"; "A"]; ["Y"; "C"; "30"]]
  ∧ ∃ msg, script (Some upload_wide) NaN NaN NaN = (page_top, raise (ParserError msg)).
Proof.
  assert (Htok : tokenize upload_wide
                 = Ok [["Country"; "City"]; ["X"; "A"]; ["Y"; "C"; "30"]])
    by (vm_compute; reflexivity).
  split; [exact Htok|].
  apply (wide_record_raises upload_wide _ _ _ NaN NaN NaN Htok).
  exists ["Y"; "C"; "30"]. split; [by left|]. simpl. lia.
Defined.



(** ** The check, in general *)

(** X9. For every upload that loads to a table lacking required
    columns, the run shows the error and the list of the missing labels
    and stops by [st.stop()], nothing else below the top of the page.
    The list holds exactly the required labels that the table lacks, in
    the order of the list of required columns, none twice.  Country and
    City are never in it: a table that lacks one of them does not get
    as far as the check. *)
Theorem schema_check_reports (file : string) (df : DataFrame)
    (country city pollutant : cell) :
  load file = Ok df → missing df ≠ [] →
  script (Some file) country city pollutant =
    (page_top ++ [st_error "❌ Dataset is missing required columns:";
                  st_write_list (missing df)],
     raise StopException)
  ∧ (∀ col, col ∈ missing df ↔ col ∈ required_columns ∧ col ∉ columns df)
  ∧ missing df `sublist_of` required_columns
  ∧ ("Country" ∉ missing df) ∧ ("City" ∉ missing df).
Proof.
  intros Hload Hm. split_and!.
  - by apply schema_error_halts.
  - apply elem_of_missing.
  - apply missing_sublist.
  - destruct (load_inv _ _ Hload) as (raw & df1 & _ & H1 & H2 & Hc1 & Hc).
    destruct (clean_inv _ _ _ H1) as (i & Hi & _).
    intros [_ Hn]%elem_of_missing. apply Hn. rewrite Hc.
    by apply position_elem_of in Hi.
  - destruct (load_inv _ _ Hload) as (raw & df1 & _ & H1 & H2 & Hc1 & Hc).
    destruct (clean_inv _ _ _ H2) as (i & Hi & Hcols).
    intros [_ Hn]%elem_of_missing. apply Hn. rewrite Hcols.
    by apply position_elem_of in Hi.
Qed.

Lemma schema_check_reports_example :
  ∃ df,
    load upload_without_lat = Ok df
    ∧ missing df = ["lat"]
    ∧ script (Some upload_without_lat) NaN NaN NaN =
        (page_top ++ [st_error "❌ Dataset is missing required columns:";
                      st_write_list (missing df)],
         raise StopException)
    ∧ (∀ col, col ∈ missing df ↔ col ∈ required_columns ∧ col ∉ columns df)
    ∧ missing df `sublist_of` required_columns
    ∧ ("Country" ∉ missing df) ∧ ("City" ∉ missing df).
Proof.
  destruct (load upload_without_lat) as [e|df] eqn:Hload;
    [vm_compute in Hload; discriminate Hload|].
  assert (Hdf := Hload). vm_compute in Hdf. injection Hdf as <-.
  eexists. split; [reflexivity|]. split; [vm_compute; reflexivity|].
  apply (schema_check_reports upload_without_lat _ NaN NaN NaN Hload).
  intros H. vm_compute in H. discriminate H.
Defined.

(** ** Where a run stops *)

Lemma bind_not_stop {A B} (m : result A) (k : A → result B) :
  m ≠ raise StopException → (∀ a, k a ≠ raise StopException) →
  m ≫= k ≠ raise StopException.
Proof.
  intros Hm Hk. destruct m as [e|a]; simpl; [|apply Hk].
  intros [= ->]. by apply Hm.
Qed.

Lemma run_bind_not_stop {A B} (m : run A) (k : A → run B) :
  m.2 ≠ raise StopException → (∀ a, (k a).2 ≠ raise StopException) →
  (m ≫= k).2 ≠ raise StopException.
Proof.
  intros Hm Hk. destruct m as [shown [e|a]]; simpl.
  - intros [= ->]. by apply Hm.
  - specialize (Hk a). by destruct (k a).
Qed.

Lemma getitem_not_stop (df : DataFrame) (name : string) :
  getitem df name ≠ raise StopException.
Proof. unfold getitem. by repeat case_match. Qed.

Lemma read_csv_not_stop (file : string) : read_csv file ≠ raise StopException.
Proof.
  unfold read_csv. apply bind_not_stop.
  - unfold tokenize, handle_eof. by repeat case_match.
  - intros records. by repeat case_match.
Qed.

Lemma clean_not_stop (df : DataFrame) (name : string) :
  clean df name ≠ raise StopException.
Proof.
  unfold clean. apply bind_not_stop; [apply getitem_not_stop|]. intros s.
  apply bind_not_stop; [|done]. unfold str_strip. by repeat case_match.
Qed.

Lemma load_not_stop (file : string) : load file ≠ raise StopException.
Proof.
  unfold load. apply bind_not_stop; [apply read_csv_not_stop|]. intros raw.
  apply bind_not_stop; [apply clean_not_stop|]. intros df. apply clean_not_stop.
Qed.

Lemma options_not_stop (df : DataFrame) (name : string) :
  options df name ≠ raise StopException.
Proof.
  unfold options. apply bind_not_stop; [apply getitem_not_stop|]. intros s.
  apply bind_not_stop; [|done]. unfold sorted. by repeat case_match.
Qed.

Lemma deref_not_stop (a : nat) (h : store) : deref a h ≠ raise StopException.
Proof. unfold deref. by case_match. Qed.

Lemma keep_not_stop (name : string) (choice : cell) (v : nat) (h : store) :
  keep name choice v h ≠ raise StopException.
Proof.
  unfold keep. apply bind_not_stop; [apply deref_not_stop|]. intros o.
  apply bind_not_stop; [apply getitem_not_stop|done].
Qed.

Lemma filtered_df_not_stop (df : DataFrame) (country city : cell) :
  filtered_df df country city ≠ raise StopException.
Proof.
  unfold filtered_df. apply bind_not_stop.
  - unfold filter_block. apply bind_not_stop; [apply deref_not_stop|]. intros o.
    destruct (new (copy o) [df]) as [a h].
    apply bind_not_stop.
    + case_match; [apply keep_not_stop|done].
    + intros [a' h']. case_match; [apply keep_not_stop|done].
  - intros [a h]. apply deref_not_stop.
Qed.

Lemma metrics_not_stop (f : DataFrame) : (metrics f).2 ≠ raise StopException.
Proof.
  unfold metrics.
  repeat first
    [ done
    | apply run_bind_not_stop; [|intros ?]
    | apply getitem_not_stop
    | apply bind_not_stop; [|intros ?] ].
  - unfold mean. by repeat case_match.
  - unfold series_max. by repeat case_match.
  - unfold py_int. by case_match.
  - unfold item0. by case_match.
Qed.

Lemma top10_not_stop (f : DataFrame) : top10 f ≠ raise StopException.
Proof.
  unfold top10. apply bind_not_stop; [|done].
  unfold sort_values_desc. apply bind_not_stop; [apply getitem_not_stop|].
  intros s. by repeat case_match.
Qed.

Lemma charts_not_stop (f : DataFrame) (p : cell) : (charts f p).2 ≠ raise StopException.
Proof.
  unfold charts.
  repeat first
    [ done
    | apply top10_not_stop
    | apply run_bind_not_stop; [|intros ?] ].
Qed.

(** Below a check that passes, no run ends by [st.stop()]. *)
Lemma dashboard_not_stop (df : DataFrame) (c y p : cell) :
  missing df = [] → (dashboard df c y p).2 ≠ raise StopException.
Proof.
  intros Hm. unfold dashboard, check_columns. rewrite Hm.
  repeat first
    [ done
    | apply options_not_stop
    | apply filtered_df_not_stop
    | apply metrics_not_stop
    | apply charts_not_stop
    | apply run_bind_not_stop; [|intros ?] ].
Qed.

(** X10. A run ends by [st.stop()] in two cases and in no other: no file
    is uploaded, and then the page shows the request for one under its
    top; or the upload loads to a table that lacks required columns, and
    then the page shows the error and the list of them.  In both cases
    nothing else is on the page: no preview, no indicator, no chart and
    no download.  Every other end of a run is the last line of the
    script or an exception that pandas or Python raised. *)
Theorem stop_only_without_upload_or_columns (uploaded_file : option string)
    (country city pollutant : cell) :
  (script uploaded_file country city pollutant).2 = raise StopException ↔
    (uploaded_file = None
     ∧ (script uploaded_file country city pollutant).1
       = page_top ++ [st_info "👆 Please upload the AQI dataset to begin analysis."])
    ∨ (∃ file df,
         uploaded_file = Some file ∧ load file = Ok df ∧ missing df ≠ []
         ∧ (script uploaded_file country city pollutant).1
           = page_top ++ [st_error "❌ Dataset is missing required columns:";
                          st_write_list (missing df)]).
Proof.
  split.
  - intros Hstop. destruct uploaded_file as [file|]; [right|by left].
    destruct (load file) as [e|df] eqn:Hload.
    { rewrite (load_raises file e) in Hstop by done. simpl in Hstop.
      injection Hstop as ->. by destruct (load_not_stop file). }
    destruct (decide (missing df = [])) as [Hm|Hm].
    + exfalso. revert Hstop. unfold script. simpl. rewrite Hload. simpl.
      pose proof (dashboard_not_stop df country city pollutant Hm) as Hd.
      by destruct (dashboard df country city pollutant) as [shown [e|[]]].
    + exists file, df. split_and!; [done..|].
      by rewrite (schema_error_halts file df).
  - intros [[-> _]|(file & df & -> & Hload & Hm & _)]; [done|].
    by rewrite (schema_error_halts file df).
Qed.

(** ** The options of the two select boxes *)

Lemma categorical_values (df : DataFrame) (name : string) (i : nat) :
  position name (columns df) = Some i → categorical df name →
  s_values (column_at i df) = Str <$> omap (λ r, as_str (field df name r)) (rows df).
Proof.
  intros Hi Hcat. simpl. rewrite <-(fmap_as_str (field df name)) by done.
  apply list_fmap_ext. intros _ r _. unfold field. by rewrite Hi.
Qed.

(** The options for a column of texts: "All", then the texts of the
    column, each once, sorted. *)
Lemma options_categorical (df : DataFrame) (name : string) :
  NoDup (columns df) → name ∈ columns df → categorical df name →
  ∃ us, options df name = Ok (Str "All" :: (Str <$> merge_sort String.le us))
    ∧ NoDup us
    ∧ ∀ s, s ∈ us ↔ ∃ r, r ∈ rows df ∧ field df name r = Str s.
Proof.
  intros Hnd Hin Hcat.
  destruct (getitem_present df name Hnd Hin) as (i & Hi & Hg).
  pose proof (categorical_values df name i Hi Hcat) as Hvals.
  set (ss := omap (λ r, as_str (field df name r)) (rows df)) in Hvals.
  destruct (mapM_as_str_total (unique (dropna (column_at i df)))) as (us & Hus & Huniq).
  { intros c Hc. unfold unique, dropna in Hc. simpl in Hc.
    apply unique_cells_elem_of in Hc as [Hc _].
    apply list_elem_of_filter in Hc as [_ Hc].
    change (c ∈ s_values (column_at i df)) in Hc. rewrite Hvals in Hc.
    apply list_elem_of_fmap in Hc as (s & -> & _). by exists s. }
  exists us. split_and!.
  - unfold options. rewrite Hg. simpl. unfold sorted. by rewrite Hus.
  - apply (NoDup_fmap_1 Str). rewrite <-Huniq. apply unique_cells_NoDup.
  - intros s. rewrite <-(list_elem_of_fmap_inj Str), <-Huniq.
    unfold unique, dropna. simpl. rewrite unique_cells_elem_of, list_elem_of_filter.
    rewrite list_elem_of_fmap. unfold field. rewrite Hi. split.
    + intros [[_ (r & Hr & Hin')] _]. by exists r.
    + intros (r & Hr & Hf). split; [|apply not_elem_of_nil].
      split; [done|]. by exists r.
Qed.

Lemma options_Str (df : DataFrame) (name : string) (opts : list cell) (c : cell) :
  NoDup (columns df) → name ∈ columns df → categorical df name →
  options df name = Ok opts → c ∈ opts → ∃ s, c = Str s.
Proof.
  intros Hnd Hin Hcat Hopts Hc.
  destruct (options_categorical df name Hnd Hin Hcat) as (us & Hopts' & _).
  rewrite Hopts' in Hopts. injection Hopts as <-.
  apply elem_of_cons in Hc as [->|Hc]; [by eexists|].
  apply list_elem_of_fmap in Hc as (s & -> & _). by eexists.
Qed.

(** X11. The options of a select box (lines 68 and 73), for a column
    that holds a text in every row, as Country and City do after the
    load: "All" first, and after it the texts of the column, each once,
    in ascending order; a text is among them exactly when some row has
    it; building them raises nothing. *)
Theorem options_domain (df : DataFrame) (name : string) :
  NoDup (columns df) → name ∈ columns df → categorical df name →
  ∃ l, options df name = Ok (Str "All" :: (Str <$> l))
    ∧ StronglySorted String.le l
    ∧ NoDup l
    ∧ ∀ s, s ∈ l ↔ ∃ r, r ∈ rows df ∧ field df name r = Str s.
Proof.
  intros Hnd Hin Hcat.
  destruct (options_categorical df name Hnd Hin Hcat) as (us & Hopts & Hndus & Hmem).
  exists (merge_sort String.le us). split_and!.
  - done.
  - apply (StronglySorted_merge_sort _).
  - by rewrite merge_sort_Permutation.
  - intros s. by rewrite merge_sort_Permutation.
Qed.

Lemma options_domain_example :
  NoDup (columns example) ∧ "City" ∈ columns example ∧ categorical example "City"
  ∧ options example "City" = Ok [Str "All"; Str "A"; Str "B"; Str "C"]
  ∧ ∃ l, options example "City" = Ok (Str "All" :: (Str <$> l))
      ∧ StronglySorted String.le l
      ∧ NoDup l
      ∧ ∀ s, s ∈ l ↔ ∃ r, r ∈ rows example ∧ field example "City" r = Str s.
Proof.
  assert (Hnd : NoDup (columns example))
    by (apply (bool_decide_unpack _); vm_compute; reflexivity).
  assert (Hin : "City" ∈ columns example) by (simpl; unfold required_columns; elem_of_list).
  assert (Hcat : categorical example "City")
    by (apply (bool_decide_unpack _); vm_compute; reflexivity).
  split; [exact Hnd|]. split; [exact Hin|]. split; [exact Hcat|].
  split; [vm_compute; reflexivity|].
  exact (options_domain example "City" Hnd Hin Hcat).
Defined.



(** ** Filters one after the other *)

Lemma working_subset_All (df : DataFrame) : working_subset df "All" "All" = df.
Proof.
  unfold working_subset. destruct df as [cs ts rs]. simpl. f_equal.
  apply filter_all, Forall_forall. intros r _. split; by left.
Qed.

(** X13. How the filters of lines 76 to 80 compose, on a Dataset: with
    both choices "All" the Working Subset is the Dataset (so a country
    that is itself named All cannot be singled out); filtering by a
    country and then filtering the result by a city gives what
    filtering by both at once gives, and so does filtering by the city
    first and by the country after. *)
Theorem filter_composes (df : DataFrame) (country city : string) :
  validated df →
  filtered_df df (Str "All") (Str "All") = Ok df
  ∧ (f ← filtered_df df (Str country) (Str "All"); filtered_df f (Str "All") (Str city))
    = filtered_df df (Str country) (Str city)
  ∧ (f ← filtered_df df (Str "All") (Str city); filtered_df f (Str country) (Str "All"))
    = filtered_df df (Str country) (Str city).
Proof.
  intros Hv. split_and!.
  - by rewrite filtered_df_spec, working_subset_All.
  - rewrite !filtered_df_spec by done. simpl.
    rewrite filtered_df_spec by by apply validated_working_subset.
    f_equal. unfold working_subset. simpl. f_equal.
    rewrite list_filter_filter. apply filter_ext_iff. intros r _.
    unfold selected, field. simpl. tauto.
  - rewrite !filtered_df_spec by done. simpl.
    rewrite filtered_df_spec by by apply validated_working_subset.
    f_equal. unfold working_subset. simpl. f_equal.
    rewrite list_filter_filter. apply filter_ext_iff. intros r _.
    unfold selected, field. simpl. tauto.
Qed.

Lemma filter_composes_example :
  validated example
  ∧ (f ← filtered_df example (Str "X") (Str "B"); Ok (field example "City" <$> rows f))
    = Ok [Str "B"]
  ∧ filtered_df example (Str "All") (Str "All") = Ok example
  ∧ (f ← filtered_df example (Str "X") (Str "All"); filtered_df f (Str "All") (Str "B"))
    = filtered_df example (Str "X") (Str "B")
  ∧ (f ← filtered_df example (Str "All") (Str "B"); filtered_df f (Str "X") (Str "All"))
    = filtered_df example (Str "X") (Str "B").
Proof.
  split; [exact validated_example|]. split; [vm_compute; reflexivity|].
  exact (filter_composes example "X" "B" validated_example).
Defined.

(** ** The run below the check *)

Lemma dashboard_run (df f : DataFrame) (c y p : cell) (copts yopts : list cell) :
  missing df = [] → options df "Country" = Ok copts → options df "City" = Ok yopts →
  filtered_df df (choose copts c) (choose yopts y) = Ok f →
  dashboard df c y p =
    (((page_filters df copts yopts, Ok ()) : run unit);;
     metrics f;;
     charts f p;;
     show (st_subheader "⬇ Download Filtered Data");;
     show (st_download_button "Download CSV" (csv f) "filtered_air_quality_data.csv");;
     show (st_markdown "---");;
     show (st_write "✅ Advanced Air Quality EDA using **Streamlit + Plotly**")).
Proof.
  intros Hm HC HY Hf. unfold dashboard, check_columns. rewrite Hm, HC. simpl.
  rewrite HY. simpl. rewrite Hf. simpl.
  destruct (metrics f) as [shown [e|[]]]; [done|].
  destruct (charts f p) as [shown' [e|[]]]; done.
Qed.

Lemma script_run (file : string) (df f : DataFrame) (c y p : cell)
    (copts yopts : list cell) :
  load file = Ok df →
  missing df = [] → options df "Country" = Ok copts → options df "City" = Ok yopts →
  filtered_df df (choose copts c) (choose yopts y) = Ok f →
  script (Some file) c y p =
    (((page_top ++ page_filters df copts yopts, Ok ()) : run unit);;
     metrics f;;
     charts f p;;
     show (st_subheader "⬇ Download Filtered Data");;
     show (st_download_button "Download CSV" (csv f) "filtered_air_quality_data.csv");;
     show (st_markdown "---");;
     show (st_write "✅ Advanced Air Quality EDA using **Streamlit + Plotly**")).
Proof.
  intros Hload Hm HC HY Hf. unfold script. simpl. rewrite Hload. simpl.
  rewrite (dashboard_run df f c y p copts yopts Hm HC HY Hf). simpl.
  destruct (metrics f) as [shown [e|[]]]; [done|].
  destruct (charts f p) as [shown' [e|[]]]; done.
Qed.

(** X14. For every upload that loads to a table that passes the check,
    its labels distinct, and whatever the three choices: the run gets
    as far as the indicators.  Building the options of both select
    boxes raises nothing; the values the two select boxes return are
    texts among their options; the filter of lines 76 to 80 raises
    nothing and gives the rows that the two values select; and the page
    shows, under its top, the preview of the first five rows of the
    whole table (not of the Working Subset), the two select boxes, and
    then what the indicators of the Working Subset show. *)
Theorem run_reaches_indicators (file : string) (df : DataFrame) (c y p : cell) :
  load file = Ok df → validated df →
  ∃ copts yopts country city f more,
    options df "Country" = Ok copts ∧ options df "City" = Ok yopts
    ∧ choose copts c = Str country ∧ Str country ∈ copts
    ∧ choose yopts y = Str city ∧ Str city ∈ yopts
    ∧ filtered_df df (Str country) (Str city) = Ok f
    ∧ rows f = filter (selected df country city) (rows df)
    ∧ (script (Some file) c y p).1
      = page_top ++ page_filters df copts yopts ++ (metrics f).1 ++ more.
Proof.
  intros Hload Hv. pose proof Hv as [Hnd Hm].
  pose proof (validated_Country df Hv) as HinC.
  pose proof (validated_City df Hv) as HinY.
  destruct (load_categorical _ _ Hload Hnd) as [HcatC HcatY].
  destruct (options_categorical df "Country" Hnd HinC HcatC) as (cs & HC & _).
  destruct (options_categorical df "City" Hnd HinY HcatY) as (ys & HY & _).
  set (copts := Str "All" :: (Str <$> merge_sort String.le cs)) in *.
  set (yopts := Str "All" :: (Str <$> merge_sort String.le ys)) in *.
  assert (Hc : choose copts c ∈ copts) by by apply choose_elem_of.
  assert (Hy : choose yopts y ∈ yopts) by by apply choose_elem_of.
  destruct (options_Str df "Country" copts _ Hnd HinC HcatC HC Hc) as (country & Hcountry).
  destruct (options_Str df "City" yopts _ Hnd HinY HcatY HY Hy) as (city & Hcity).
  pose proof (filtered_df_spec df country city Hv) as Hf.
  assert (Hrun := script_run file df (working_subset df country city) c y p copts yopts
                    Hload Hm HC HY).
  rewrite Hcountry, Hcity in Hrun. specialize (Hrun Hf).
  rewrite Hcountry in Hc. rewrite Hcity in Hy.
  exists copts, yopts, country, city, (working_subset df country city).
  rewrite Hrun. simpl.
  destruct (metrics _) as [shown [e|[]]]; simpl.
  - exists []. split_and!; try done. by rewrite (right_id_L [] (++)).
  - destruct (charts _ p) as [shown' [e|[]]]; simpl;
      eexists; (split_and!; try done); by rewrite <-?(assoc_L (++)).
Qed.

Lemma run_reaches_indicators_example :
  load example_upload = Ok example ∧ validated example
  ∧ ∃ copts yopts country city f more,
      options example "Country" = Ok copts ∧ options example "City" = Ok yopts
      ∧ choose copts (Str "X") = Str country ∧ Str country ∈ copts
      ∧ choose yopts (Str "nowhere") = Str city ∧ Str city ∈ yopts
      ∧ filtered_df example (Str country) (Str city) = Ok f
      ∧ rows f = filter (selected example country city) (rows example)
      ∧ (script (Some example_upload) (Str "X") (Str "nowhere") NaN).1
        = page_top ++ page_filters example copts yopts ++ (metrics f).1 ++ more.
Proof.
  assert (Hload : load example_upload = Ok example) by (vm_compute; reflexivity).
  split; [exact Hload|]. split; [exact validated_example|].
  exact (run_reaches_indicators example_upload example (Str "X") (Str "nowhere") NaN
           Hload validated_example).
Defined.

(** X15. For every upload that loads to a table that passes the check
    and every pair of options under which no row is selected: the run
    shows the preview and the select boxes, the count 0 and the average
    not-a-number, and ends there in the [ValueError] of [int(nan)]; no
    chart is drawn and no download is offered for an empty selection. *)
Theorem empty_selection_stops_run (file : string) (df : DataFrame)
    (country city : string) (p : cell) (copts yopts : list cell) :
  load file = Ok df → validated df →
  options df "Country" = Ok copts → options df "City" = Ok yopts →
  Str country ∈ copts → Str city ∈ yopts →
  (∀ r, r ∈ rows df → ¬ selected df country city r) →
  script (Some file) (Str country) (Str city) p =
    (page_top ++ page_filters df copts yopts ++
       [st_columns 4;
        st_metric "Locations" (v_int 0);
        st_metric "Average AQI" (v_float nan)],
     raise (ValueError "cannot convert float NaN to integer")).
Proof.
  intros Hload Hv HC HY Hc Hy Hnone. pose proof Hv as [Hnd Hm].
  set (f := working_subset df country city).
  assert (Hnil : rows f = []).
  { simpl. apply elem_of_nil_inv. intros r [Hsel Hr]%list_elem_of_filter.
    by apply (Hnone r). }
  assert (Hrun := script_run file df f (Str country) (Str city) p copts yopts
                    Hload Hm HC HY).
  unfold choose in Hrun. rewrite !bool_decide_eq_true_2 in Hrun by done.
  rewrite (Hrun (filtered_df_spec df country city Hv)).
  destruct (getitem_present f "AQI Value") as (i & Hi & Hg);
    [done|by apply validated_AQI_Value|].
  assert (Hs : s_values (column_at i f) = []).
  { change (cell_at i <$> rows f = []). by rewrite Hnil. }
  assert (Hmetrics : metrics f =
    ([st_columns 4; st_metric "Locations" (v_int 0); st_metric "Average AQI" (v_float nan)],
     raise (ValueError "cannot convert float NaN to integer"))).
  { unfold metrics. rewrite Hg, Hnil. simpl.
    by rewrite (mean_empty _ Hs), (series_max_empty _ Hs). }
  rewrite Hmetrics. done.
Qed.

Lemma empty_selection_stops_run_example :
  script (Some example_upload) (Str "Y") (Str "A") NaN =
    (page_top
     ++ page_filters example [Str "All"; Str "X"; Str "Y"]
          [Str "All"; Str "A"; Str "B"; Str "C"]
     ++ [st_columns 4;
         st_metric "Locations" (v_int 0);
         st_metric "Average AQI" (v_float nan)],
     raise (ValueError "cannot convert float NaN to integer")).
Proof.
  apply (empty_selection_stops_run example_upload example "Y" "A" NaN).
  - vm_compute. reflexivity.
  - exact validated_example.
  - vm_compute. reflexivity.
  - vm_compute. reflexivity.
  - elem_of_list.
  - elem_of_list.
  - apply Forall_forall. apply (bool_decide_unpack _). vm_compute. reflexivity.
Defined.

(** ** The average and the extremes *)







(** ** The pollutant of the violin plot *)



(** ** The ranking when AQI values are missing *)

Lemma mixed_no_text (s : Series) :
  Forall (λ c, as_str c = None) (s_values s) → mixed s = false.
Proof.
  intros Hs. unfold mixed. apply andb_false_iff. right.
  induction Hs as [|c l Hc _ IH]; [done|]. simpl. rewrite IH, orb_false_r.
  apply bool_decide_eq_false. rewrite Hc. by intros [? ?].
Qed.

(** X18. The ranking of line 169 on a table that passed the check and
    whose AQI values are numbers or missing: it is the first ten rows
    (all, when there are fewer) of the rows in descending order of AQI
    value with the rows of missing value last.  So a row without an AQI
    value is ranked only when every row left out has none either, and
    every row ranked has an AQI value at least that of any row left
    out. *)
Theorem top10_missing_last (f : DataFrame) :
  validated f → Forall (λ r, as_str (field f "AQI Value" r) = None) (rows f) →
  ∃ t left_out,
    top10 f = Ok t
    ∧ length (rows t) = 10 `min` length (rows f)
    ∧ rows t ++ left_out ≡ₚ rows f
    ∧ StronglySorted (ranks_before f) (rows t ++ left_out)
    ∧ (∀ r r', r ∈ rows t → r' ∈ left_out →
         field f "AQI Value" r = NaN → field f "AQI Value" r' = NaN)
    ∧ (∀ r r' z', r ∈ rows t → r' ∈ left_out → field f "AQI Value" r' = Int z' →
         ∃ z, field f "AQI Value" r = Int z ∧ (z' ≤ z)%Z).
Proof.
  intros Hv Hnum.
  destruct (validated_getitem f "AQI Value" Hv) as (i & Hi & Hg);
    [unfold required_columns; elem_of_list|].
  set (l := merge_sort (desc_at i) (rows f)).
  assert (Hperm : l ≡ₚ rows f) by apply merge_sort_Permutation.
  assert (Hsorted : StronglySorted (ranks_before f) l).
  { eapply StronglySorted_weaken; [|apply StronglySorted_merge_sort; apply _].
    intros r1 r2 _ _. unfold desc_at, ranks_before, field. by rewrite Hi. }
  assert (Hcross : ∀ r r', r ∈ take 10 l → r' ∈ drop 10 l → ranks_before f r r').
  { rewrite <-(take_drop 10 l) in Hsorted.
    apply StronglySorted_app in Hsorted as (Hcross & _). done. }
  exists {| columns := columns f; dtypes := dtypes f; rows := take 10 l |}, (drop 10 l).
  split_and!.
  - unfold top10, sort_values_desc. rewrite Hg. simpl.
    rewrite mixed_no_text, Hi; [done|].
    simpl. apply Forall_fmap. eapply Forall_impl; [exact Hnum|].
    intros r. simpl. unfold field. by rewrite Hi.
  - simpl. by rewrite length_take, Hperm.
  - simpl. by rewrite take_drop.
  - simpl. by rewrite take_drop.
  - simpl. intros r r' Hr Hr' Hnan. specialize (Hcross r r' Hr Hr').
    unfold ranks_before in Hcross. rewrite Hnan in Hcross.
    by destruct (field f "AQI Value" r').
  - simpl. intros r r' z' Hr Hr' Hz'. specialize (Hcross r r' Hr Hr').
    unfold ranks_before in Hcross. rewrite Hz' in Hcross.
    assert (Hin : r ∈ rows f).
    { rewrite <-Hperm, <-(take_drop 10 l). apply elem_of_app. by left. }
    pose proof (proj1 (Forall_forall _ _) Hnum r Hin) as Hns.
    destruct (field f "AQI Value" r) as [|z|s]; simpl in *; [done| |done].
    by exists z.
Qed.

Lemma top10_missing_last_example :
  validated example_gap
  ∧ Forall (λ r, as_str (field example_gap "AQI Value" r) = None) (rows example_gap)
  ∧ (t ← top10 example_gap; Ok (field example_gap "AQI Value" <$> rows t))
    = Ok [Int 80; Int 50; NaN]
  ∧ ∃ t left_out,
      top10 example_gap = Ok t
      ∧ length (rows t) = 10 `min` length (rows example_gap)
      ∧ rows t ++ left_out ≡ₚ rows example_gap
      ∧ StronglySorted (ranks_before example_gap) (rows t ++ left_out)
      ∧ (∀ r r', r ∈ rows t → r' ∈ left_out →
           field example_gap "AQI Value" r = NaN → field example_gap "AQI Value" r' = NaN)
      ∧ (∀ r r' z', r ∈ rows t → r' ∈ left_out →
           field example_gap "AQI Value" r' = Int z' →
           ∃ z, field example_gap "AQI Value" r = Int z ∧ (z' ≤ z)%Z).
Proof.
  assert (Hv : validated example_gap).
  { split; [apply (bool_decide_unpack _); vm_compute; reflexivity|reflexivity]. }
  assert (Hnum : Forall (λ r, as_str (field example_gap "AQI Value" r) = None)
                   (rows example_gap))
    by (apply (bool_decide_unpack _); vm_compute; reflexivity).
  split; [exact Hv|]. split; [exact Hnum|]. split; [vm_compute; reflexivity|].
  exact (top10_missing_last example_gap Hv Hnum).
Defined.

(** ** The category axis of the ranking *)





(** ** What the export holds *)

Lemma no_creturn_point_zero (z : Z) : no_creturn (pretty z +:+ ".0").
Proof.
  unfold no_creturn. rewrite chars_pretty_point_zero. apply Forall_app. split.
  - eapply Forall_impl; [apply pretty_Z_ordinary|]. by intros a (_ & _ & _ & ?).
  - by repeat constructor.
Qed.

Lemma no_creturn_pretty (z : Z) : no_creturn (pretty z).
Proof.
  unfold no_creturn. eapply Forall_impl; [apply pretty_Z_ordinary|].
  by intros a (_ & _ & _ & ?).
Qed.

(** X20. The export of lines 189 and 190, for a table of two columns or
    more whose labels and texts hold no carriage return, whatever commas,
    quotes, ends of line or missing-value words they hold: read record
    by record, the bytes of the download are the header record, which is
    the labels, and then one record for each row of the Working Subset,
    in its order, with one field for each label and no field of row
    labels; a field is empty for a missing cell and otherwise the text
    of the cell, a number of a floating-point column with a point and a
    zero. *)
Theorem export_lists_every_row (f : DataFrame) :
  2 ≤ length (columns f) → Forall no_creturn (columns f) →
  Forall (λ r, Forall (λ c, ∀ s, c = Str s → no_creturn s) r) (rows f) →
  ∃ records,
    tokenize (csv f) = Ok (columns f :: records)
    ∧ Forall2 (λ r record,
        length record = length (columns f)
        ∧ ∀ j, j < length (columns f) →
            field_at j record = format_cell (default object (dtypes f !! j)) (cell_at j r))
      (rows f) records.
Proof.
  intros Hn Hlabels Hcells.
  set (n := length (columns f)) in *.
  exists (format_row (dtypes f) n <$> rows f). split.
  - assert (Hfile : csv f = text ((columns f :: (format_row (dtypes f) n <$> rows f))
                                    ≫= write_row)).
    { unfold csv, encode_utf8, to_csv. f_equal. rewrite bind_cons. f_equal.
      by rewrite list_fmap_bind. }
    rewrite Hfile. apply tokenize_written. constructor; [done|].
    apply Forall_fmap, Forall_forall. intros r Hr. simpl. split.
    + unfold format_row. by rewrite length_fmap, length_seq.
    + apply Forall_fmap, Forall_forall. intros j _. simpl.
      pose proof (proj1 (Forall_forall _ _) Hcells r Hr) as Hrow.
      unfold cell_at. destruct (r !! j) as [c|] eqn:Hc; simpl; [|by constructor].
      destruct c as [|z|s]; simpl.
      * by constructor.
      * destruct (default object (dtypes f !! j));
          auto using no_creturn_pretty, no_creturn_point_zero.
      * apply (proj1 (Forall_forall _ _) Hrow (Str s)); [|done].
        by eapply list_elem_of_lookup_2.
  - apply Forall2_fmap_r, Forall_Forall2_diag, Forall_forall. intros r _. split.
    + unfold format_row. by rewrite length_fmap, length_seq.
    + intros j Hj. by apply field_at_format_row.
Qed.

Lemma export_lists_every_row_example :
  tokenize (csv example_gap)
  = Ok [required_columns;
        ["X"; "A"; "50.0"; "Good"; "1"; "2"; "3"; "4"; "10"; "20"];
        ["X"; "B"; EmptyString; "Moderate"; "1"; "2"; "3"; "4"; "11"; "21"];
        ["Y"; "C"; "80.0"; "Good"; "1"; "2"; "3"; "4"; "12"; "22"]]
  ∧ ∃ records,
      tokenize (csv example_gap) = Ok (columns example_gap :: records)
      ∧ Forall2 (λ r record,
          length record = length (columns example_gap)
          ∧ ∀ j, j < length (columns example_gap) →
              field_at j record
              = format_cell (default object (dtypes example_gap !! j)) (cell_at j r))
        (rows example_gap) records.
Proof.
  split; [vm_compute; reflexivity|].
  apply (export_lists_every_row example_gap).
  - simpl. lia.
  - apply Forall_forall. intros c Hc. unfold no_creturn.
    simpl in Hc. unfold required_columns in Hc.
    repeat (apply elem_of_cons in Hc as [->|Hc];
            [apply (bool_decide_unpack _); vm_compute; reflexivity|]).
    by apply elem_of_nil in Hc.
  - simpl. repeat constructor; intros s Hs; try discriminate Hs;
      injection Hs as <-; unfold no_creturn;
      apply (bool_decide_unpack _); vm_compute; reflexivity.
Defined.
